(** * river_torch.regression: the PyTorch-to-River regression adapters

    A shallow embedding of [river_torch/regression/regressor.py]: the
    single-example adapter [Regressor] and the rolling-window adapter
    [RollingRegressor].  The neural-network library is an interface
    ([Torch]); the methods of the adapters are programs in a small monad
    that threads the adapter object, lets a Python exception abort a call
    while keeping the mutations made before it, and records the calls made
    to the network library. *)

From Stdlib Require Import String List ZArith Bool Lia.
Import ListNotations.

Set Implicit Arguments.

(** ** Python values *)

(** The exceptions the modelled code can raise. *)
Inductive exn : Type :=
| AttributeError
| TypeError
| ValueError
| RuntimeError.

(** A feature value or a target: a number, or something that is not one. *)
Inductive pyval (F : Type) : Type :=
| PyFloat (f : F)
| PyStr (s : string).

Arguments PyFloat {F} f.
Arguments PyStr {F} s.

(** A feature map: a Python [dict], whose iteration order is the insertion
    order of its keys. *)
Definition dict (F : Type) : Type := list (string * pyval F).

(** [len(x)] *)
Definition len {F} (x : dict F) : nat := length x.

(** What a local variable of [predict_one] can be bound to. *)
Inductive pyobj (F : Type) : Type :=
| PyDict (d : dict F)
| PyList (l : list (list (pyval F))).

Arguments PyDict {F} d.
Arguments PyList {F} l.

(** [list(x.values())]: a [dict] has the method, a [list] has not. *)
Definition py_values {F} (x : pyobj F) : exn + list (pyval F) :=
  match x with
  | PyDict d => inr (map snd d)
  | PyList _ => inl AttributeError
  end.

(** [x.append(row)] *)
Definition py_append {F} (x : pyobj F) (row : list (pyval F)) : exn + pyobj F :=
  match x with
  | PyList l => inr (PyList (l ++ [row]))
  | PyDict _ => inl AttributeError
  end.

(** [copy.deepcopy]: the copy is a value of its own, equal to the original. *)
Definition deepcopy {A} (a : A) : A := a.

(** A tensor, as rows of numbers. *)
Definition tensor (F : Type) : Type := list (list F).

(** ** The converters of [river_torch.utils.river_compat]

    Each takes the device the tensor is to live on as well; the device
    plays no part in what follows and is left out. *)

Definition to_float {F} (v : pyval F) : exn + F :=
  match v with
  | PyFloat f => inr f
  | PyStr _ => inl TypeError
  end.

Fixpoint floats {F} (vs : list (pyval F)) : exn + list F :=
  match vs with
  | [] => inr []
  | v :: vs' =>
      match to_float v with
      | inl e => inl e
      | inr f =>
          match floats vs' with
          | inl e => inl e
          | inr fs => inr (f :: fs)
          end
      end
  end.

Fixpoint rows_of {F} (l : list (list (pyval F))) : exn + tensor F :=
  match l with
  | [] => inr []
  | r :: l' =>
      match floats r with
      | inl e => inl e
      | inr fr =>
          match rows_of l' with
          | inl e => inl e
          | inr t => inr (fr :: t)
          end
      end
  end.

Definition regular {F} (t : tensor F) : bool :=
  match t with
  | [] => true
  | r :: t' => forallb (fun r' => Nat.eqb (length r') (length r)) t'
  end.

(** Modelled from the spec: [dict2tensor] is imported from
    [river_torch/utils/river_compat.py], which is missing.  Section 4.1:
    the input is a feature map, all values must be numeric, the result is
    a 1xF tensor whose column order is the iteration order of the map; it
    fails if a value is not numeric. *)
Definition dict2tensor {F} (x : dict F) : exn + tensor F :=
  match floats (map snd x) with
  | inl e => inl e
  | inr row => inr [row]
  end.

(** Modelled from the spec: [list2tensor] is imported from
    [river_torch/utils/river_compat.py], which is missing.  Section 4.1:
    the input is an ordered sequence of numeric lists of one length, the
    result is an NxF tensor; it fails on irregular row lengths. *)
Definition list2tensor {F} (l : list (list (pyval F))) : exn + tensor F :=
  match rows_of l with
  | inl e => inl e
  | inr t => if regular t then inr t else inl ValueError
  end.

(** Modelled from the spec: [scalar2tensor] is imported from
    [river_torch/utils/river_compat.py], which is missing.  Section 4.1:
    it wraps a single numeric value as a 1-element tensor. *)
Definition scalar2tensor {F} (y : pyval F) : exn + tensor F :=
  match to_float y with
  | inl e => inl e
  | inr f => inr [[f]]
  end.

(** ** The network library *)

(** What the adapters use of PyTorch and of the capabilities handed to the
    constructor ([build_fn], [optimizer_fn], [loss_fn]).  A module and the
    optimizer built on its parameters share those parameters, so the
    optimizer's methods take and return the module as well. *)
Class Torch : Type := {
  scalar : Type;                       (* a Python float *)
  float0 : scalar;                     (* the literal 0.0 *)
  nn_module : Type;                    (* torch.nn.Module *)
  optim : Type;                        (* torch.optim.Optimizer *)
  output : Type;                       (* the tensor a forward pass returns *)
  loss : Type;                         (* the tensor a loss function returns *)
  params : Type;                       (* the values of the trainable parameters *)
  build_fn : nat -> exn + nn_module;
  optimizer_fn : nn_module -> exn + optim;
  train : nn_module -> nn_module;
  eval : nn_module -> nn_module;
  forward : nn_module -> tensor scalar -> nn_module * (exn + output);
  loss_fn : output -> tensor scalar -> exn + loss;
  backward : loss -> nn_module -> nn_module * (exn + unit);
  zero_grad : optim -> nn_module -> optim * nn_module;
  step : optim -> nn_module -> optim * nn_module;
  item : output -> exn + scalar;
  parameters : nn_module -> params
}.

(** A call to the network library, as an adapter makes it. *)
Inductive event `{Torch} : Type :=
| EvBuild (n_features : nat)
| EvOptimizer
| EvTrain
| EvEval
| EvZeroGrad
| EvForward (x : tensor scalar)
| EvLoss (y : tensor scalar)
| EvBackward
| EvStep
| EvItem.

Definition is_construction `{Torch} (e : event) : bool :=
  match e with EvBuild _ | EvOptimizer => true | _ => false end.

Definition is_forward `{Torch} (e : event) : bool :=
  match e with EvForward _ => true | _ => false end.

Definition is_step `{Torch} (e : event) : bool :=
  match e with EvStep => true | _ => false end.

(** The calls that use the network or its optimizer once they exist. *)
Definition uses_net `{Torch} (e : event) : bool :=
  match e with
  | EvTrain | EvEval | EvZeroGrad | EvForward _ | EvBackward | EvStep => true
  | _ => false
  end.

(** ** The adapter object *)

(** The last [k] elements of a list. *)
Definition lastn {A} (k : nat) (l : list A) : list A :=
  skipn (length l - k) l.

(** Modelled from the spec: the window buffer is created by
    [RollingDeepEstimator] in [river_torch/base.py], which is missing.
    Sections 3 and 4.3: the buffer is an ordered, size-bounded sequence of
    feature-value lists, of capacity [window_size].  A row appended to a
    buffer that holds [window_size] rows pushes the oldest row out: the
    buffer keeps the last [window_size] rows. *)
Definition bounded_append {A} (maxlen : Z) (w : list A) (row : A) : list A :=
  lastn (Z.to_nat maxlen) (w ++ [row]).

Arguments lastn : simpl never.
Arguments bounded_append : simpl never.

(** Modelled from the spec: the attributes of an adapter are declared by
    [DeepEstimator] and [RollingDeepEstimator] in [river_torch/base.py],
    which is missing.  Sections 3, 4.2 and 4.3: the network and the
    optimizer, absent until the first call; for the rolling adapter the
    capacity [window_size] (never negative), the flag [append_predict] and
    the bounded window buffer.  [Regressor] uses [net] and [optimizer]
    only; [RollingRegressor] uses them all. *)
Record estimator `{Torch} : Type := mkEstimator {
  net : option nn_module;
  optimizer : option optim;
  window_size : Z;
  append_predict : bool;
  _x_window : list (list (pyval scalar))
}.

Arguments mkEstimator {_} net optimizer window_size append_predict _x_window.

Definition set_net `{Torch} (n : nn_module) (s : estimator) : estimator :=
  mkEstimator (Some n) (optimizer s) (window_size s) (append_predict s) (_x_window s).

Definition set_optimizer `{Torch} (o : optim) (s : estimator) : estimator :=
  mkEstimator (net s) (Some o) (window_size s) (append_predict s) (_x_window s).

Definition set_x_window `{Torch} (w : list (list (pyval scalar))) (s : estimator) : estimator :=
  mkEstimator (net s) (optimizer s) (window_size s) (append_predict s) w.

(** Modelled from the spec: the constructors are inherited from the
    missing [river_torch/base.py].  Section 3: a freshly constructed
    adapter has no network and no optimizer, and its buffer is empty; the
    capacity of the buffer is never negative, so a negative [window]
    stands for no adapter. *)
Definition new_estimator `{Torch} (window : Z) (append : bool) : estimator :=
  mkEstimator None None window append [].

(** What [return self] returns. *)
Inductive self_ref : Type := Self.

(** ** The monad of a method call *)

(** A method runs on the adapter and yields the adapter as it leaves it,
    the calls it made to the network library, and a result or the
    exception that ended it. *)
Definition M `{Torch} (A : Type) : Type :=
  estimator -> estimator * list event * (exn + A).

Definition ret `{Torch} {A} (a : A) : M A := fun s => (s, [], inr a).

Definition bind `{Torch} {A B} (m : M A) (k : A -> M B) : M B :=
  fun s =>
    match m s with
    | (s1, t1, inl e) => (s1, t1, inl e)
    | (s1, t1, inr a) =>
        match k a s1 with
        | (s2, t2, r) => (s2, t1 ++ t2, r)
        end
    end.

Declare Scope py_scope.
Delimit Scope py_scope with py.
Notation "x <- m ;; k" := (bind m (fun x => k))
  (at level 61, m at next level, right associativity) : py_scope.
Notation "m ;; k" := (bind m (fun _ => k))
  (at level 61, right associativity) : py_scope.
Open Scope py_scope.

Definition lift `{Torch} {A} (r : exn + A) : M A := fun s => (s, [], r).
Definition emit `{Torch} (e : event) : M unit := fun s => (s, [e], inr tt).
Definition gets `{Torch} {A} (f : estimator -> A) : M A := fun s => (s, [], inr (f s)).
Definition modify `{Torch} (f : estimator -> estimator) : M unit :=
  fun s => (f s, [], inr tt).

(** The three components of a finished call. *)
Definition post `{Torch} {R} (r : estimator * list event * R) : estimator :=
  fst (fst r).
Definition calls `{Torch} {R} (r : estimator * list event * R) : list event :=
  snd (fst r).
Definition outcome `{Torch} {R} (r : estimator * list event * R) : R :=
  snd r.

(** [self.net.<method>] and [self.optimizer.<method>]: [None] has no
    methods. *)
Definition self_net `{Torch} : M nn_module :=
  fun s =>
    match net s with
    | Some n => (s, [], inr n)
    | None => (s, [], inl AttributeError)
    end.

Definition self_optimizer `{Torch} : M optim :=
  fun s =>
    match optimizer s with
    | Some o => (s, [], inr o)
    | None => (s, [], inl AttributeError)
    end.

(** [self.net.train()] *)
Definition net_train `{Torch} : M unit :=
  n <- self_net ;;
  emit EvTrain ;;
  modify (set_net (train n)).

(** [self.net.eval()] *)
Definition net_eval `{Torch} : M unit :=
  n <- self_net ;;
  emit EvEval ;;
  modify (set_net (eval n)).

(** [self.net(x)] *)
Definition net_call `{Torch} (x : tensor scalar) : M output :=
  n <- self_net ;;
  emit (EvForward x) ;;
  modify (set_net (fst (forward n x))) ;;
  lift (snd (forward n x)).

(** [self.loss_fn(y_pred, y)] *)
Definition loss_call `{Torch} (y_pred : output) (y : tensor scalar) : M loss :=
  emit (EvLoss y) ;;
  lift (loss_fn y_pred y).

(** [loss.backward()] *)
Definition loss_backward `{Torch} (l : loss) : M unit :=
  n <- self_net ;;
  emit EvBackward ;;
  modify (set_net (fst (backward l n))) ;;
  lift (snd (backward l n)).

(** [self.optimizer.zero_grad()] *)
Definition optimizer_zero_grad `{Torch} : M unit :=
  o <- self_optimizer ;;
  n <- self_net ;;
  emit EvZeroGrad ;;
  modify (fun s => set_net (snd (zero_grad o n)) (set_optimizer (fst (zero_grad o n)) s)).

(** [self.optimizer.step()] *)
Definition optimizer_step `{Torch} : M unit :=
  o <- self_optimizer ;;
  n <- self_net ;;
  emit EvStep ;;
  modify (fun s => set_net (snd (step o n)) (set_optimizer (fst (step o n)) s)).

(** [<output>.item()] *)
Definition output_item `{Torch} (p : output) : M scalar :=
  emit EvItem ;;
  lift (item p).

(** [if self.net is None: <body>] *)
Definition if_net_is_None `{Torch} (body : M unit) : M unit :=
  fun s =>
    match net s with
    | None => body s
    | Some _ => (s, [], inr tt)
    end.

(** Modelled from the spec: [_init_net] is a method of [DeepEstimator] and
    [RollingDeepEstimator] in [river_torch/base.py], which is missing.
    Sections 3, 6 and 7: the network builder takes the number of input
    features, the optimizer builder takes the network's parameters; an
    error of either builder ends the call and leaves the adapter
    uninitialized. *)
Definition _init_net `{Torch} (n_features : nat) : M unit :=
  emit (EvBuild n_features) ;;
  n <- lift (build_fn n_features) ;;
  emit EvOptimizer ;;
  o <- lift (optimizer_fn n) ;;
  modify (fun s => set_optimizer o (set_net n s)).

(** ** Regressor *)

Module Regressor.

Definition _learn_one `{Torch} (x y : tensor scalar) : M unit :=
  optimizer_zero_grad ;;
  y_pred <- net_call x ;;
  l <- loss_call y_pred y ;;
  loss_backward l ;;
  optimizer_step.

Definition learn_one `{Torch} (x : dict scalar) (y : pyval scalar) : M self_ref :=
  if_net_is_None (_init_net (len x)) ;;
  x <- lift (dict2tensor x) ;;
  y <- lift (scalar2tensor y) ;;
  net_train ;;
  _learn_one x y ;;
  ret Self.

Definition predict_one `{Torch} (x : dict scalar) : M scalar :=
  if_net_is_None (_init_net (len x)) ;;
  x <- lift (dict2tensor x) ;;
  net_eval ;;
  p <- net_call x ;;
  output_item p.

End Regressor.

(** ** RollingRegressor *)

Module RollingRegressor.

(** Modelled from the spec: [self._x_window.append(row)] is the append
    of the bounded window buffer of sections 3 and 4.3, whose declaration
    is in the missing [river_torch/base.py]: see [bounded_append]. *)
Definition x_window_append `{Torch} (row : list (pyval scalar)) : M unit :=
  modify (fun s =>
            set_x_window (bounded_append (window_size s) (_x_window s) row) s).

Definition predict_one `{Torch} (x : dict scalar) : M scalar :=
  if_net_is_None (_init_net (len x)) ;;
  w <- gets _x_window ;;
  size <- gets window_size ;;
  if (Z.of_nat (length w) =? size)%Z then
    append <- gets append_predict ;;
    x <- (if append : bool then
            row <- lift (py_values (PyDict x)) ;;
            x_window_append row ;;
            w <- gets _x_window ;;
            lift (list2tensor w)
          else
            let x := PyList (deepcopy w) in
            row <- lift (py_values x) ;;
            x <- lift (py_append x row) ;;
            match x with
            | PyList l => lift (list2tensor l)
            | PyDict _ => lift (inl TypeError)
            end) ;;
    net_eval ;;
    p <- net_call x ;;
    output_item p
  else
    ret float0.

Definition _learn_window `{Torch} (x y : tensor scalar) : M unit :=
  optimizer_zero_grad ;;
  y_pred <- net_call x ;;
  l <- loss_call y_pred y ;;
  loss_backward l ;;
  optimizer_step.

Definition learn_one `{Torch} (x : dict scalar) (y : pyval scalar) : M self_ref :=
  if_net_is_None (_init_net (len x)) ;;
  row <- lift (py_values (PyDict x)) ;;
  x_window_append row ;;
  w <- gets _x_window ;;
  size <- gets window_size ;;
  (if (Z.of_nat (length w) =? size)%Z then
     x <- lift (list2tensor w) ;;
     y <- lift (scalar2tensor y) ;;
     net_train ;;
     _learn_window x y
   else
     ret tt) ;;
  ret Self.

End RollingRegressor.

(** ** Runs of several calls *)

Inductive call `{Torch} : Type :=
| LearnOne (x : dict scalar) (y : pyval scalar)
| PredictOne (x : dict scalar).

(** What a call hands back to its caller. *)
Inductive returned `{Torch} : Type :=
| Learned (r : exn + self_ref)
| Predicted (r : exn + scalar).

Inductive adapter : Type := SingleExample | Rolling.

Definition run_call `{Torch} (a : adapter) (c : call) (s : estimator)
  : estimator * list event * returned :=
  match a, c with
  | SingleExample, LearnOne x y =>
      let r := Regressor.learn_one x y s in (post r, calls r, Learned (outcome r))
  | SingleExample, PredictOne x =>
      let r := Regressor.predict_one x s in (post r, calls r, Predicted (outcome r))
  | Rolling, LearnOne x y =>
      let r := RollingRegressor.learn_one x y s in (post r, calls r, Learned (outcome r))
  | Rolling, PredictOne x =>
      let r := RollingRegressor.predict_one x s in (post r, calls r, Predicted (outcome r))
  end.

(** The caller goes on with the adapter as a call left it, whether the call
    returned or raised.  [run_calls] gives the adapter after the last call
    and, call by call, the library calls made and what was returned. *)
Fixpoint run_calls `{Torch} (a : adapter) (cs : list call) (s : estimator)
  : estimator * list (list event * returned) :=
  match cs with
  | [] => (s, [])
  | c :: cs' =>
      match run_call a c s with
      | (s1, t, r) =>
          match run_calls a cs' s1 with
          | (s2, rs) => (s2, (t, r) :: rs)
          end
      end
  end.

(** The feature map of a call. *)
Definition features `{Torch} (c : call) : dict scalar :=
  match c with
  | LearnOne x _ => x
  | PredictOne x => x
  end.

(** ** A network to run the adapters on

    A linear unit with integer weights that sums over the rows of its
    input, the squared error as loss, and plain gradient descent with
    learning rate 1. *)

Module Linear.

Record unit_ : Type := mkUnit {
  weights : list Z;
  bias : Z;
  training : bool;
  grad_weights : list Z;
  grad_bias : Z
}.

Record sgd : Type := mkSgd {
  steps_taken : nat
}.

(** The value of a forward pass and what backpropagation needs of it. *)
Record out : Type := mkOut {
  value : Z;
  column_sums : list Z;
  n_rows : Z
}.

Record sq_loss : Type := mkLoss {
  loss_value : Z;
  d_weights : list Z;
  d_bias : Z
}.

Definition dot (u v : list Z) : Z :=
  fold_right Z.add 0%Z (map (fun p => (fst p * snd p)%Z) (combine u v)).

Definition vadd (u v : list Z) : list Z :=
  map (fun p => (fst p + snd p)%Z) (combine u v).

Definition vsub (u v : list Z) : list Z :=
  map (fun p => (fst p - snd p)%Z) (combine u v).

Definition zeros (n : nat) : list Z := repeat 0%Z n.

Definition build (n_features : nat) : exn + unit_ :=
  inr (mkUnit (zeros n_features) 0 false (zeros n_features) 0).

Definition make_optimizer (n : unit_) : exn + sgd := inr (mkSgd 0).

Definition set_training (b : bool) (n : unit_) : unit_ :=
  mkUnit (weights n) (bias n) b (grad_weights n) (grad_bias n).

Definition call_unit (n : unit_) (x : tensor Z) : unit_ * (exn + out) :=
  if forallb (fun r => Nat.eqb (length r) (length (weights n))) x then
    (n, inr (mkOut
               (fold_right Z.add 0%Z (map (fun r => (dot (weights n) r + bias n)%Z) x))
               (fold_right vadd (zeros (length (weights n))) x)
               (Z.of_nat (length x))))
  else (n, inl RuntimeError).

Definition squared_error (p : out) (y : tensor Z) : exn + sq_loss :=
  match y with
  | [[t]] =>
      let d := (2 * (value p - t))%Z in
      inr (mkLoss ((value p - t) * (value p - t))
                  (map (Z.mul d) (column_sums p))
                  (d * n_rows p))
  | _ => inl RuntimeError
  end.

Definition backprop (l : sq_loss) (n : unit_) : unit_ * (exn + unit) :=
  (mkUnit (weights n) (bias n) (training n)
          (vadd (grad_weights n) (d_weights l))
          (grad_bias n + d_bias l),
   inr tt).

Definition clear_grad (o : sgd) (n : unit_) : sgd * unit_ :=
  (o, mkUnit (weights n) (bias n) (training n) (zeros (length (weights n))) 0).

Definition descend (o : sgd) (n : unit_) : sgd * unit_ :=
  (mkSgd (S (steps_taken o)),
   mkUnit (vsub (weights n) (grad_weights n)) (bias n - grad_bias n)
          (training n) (grad_weights n) (grad_bias n)).

#[global] Instance torch : Torch := {
  scalar := Z;
  float0 := 0%Z;
  nn_module := unit_;
  optim := sgd;
  output := out;
  loss := sq_loss;
  params := list Z * Z;
  build_fn := build;
  optimizer_fn := make_optimizer;
  train := set_training true;
  eval := set_training false;
  forward := call_unit;
  loss_fn := squared_error;
  backward := backprop;
  zero_grad := clear_grad;
  step := descend;
  item := fun p => inr (value p);
  parameters := fun n => (weights n, bias n)
}.

(** The feature map [{a: v}] and the calls of the scenario of the
    specification (window of 2, [append_predict] off). *)
Definition a_is (v : Z) : dict Z := [("a"%string, PyFloat v)].

Definition fresh (window : Z) (append : bool) : @estimator torch :=
  new_estimator window append.

(** [learn_one({a: v}, y)] and [predict_one({a: v})] *)
Definition learn (v y : Z) : @call torch := LearnOne (a_is v) (PyFloat y).
Definition predict (v : Z) : @call torch := PredictOne (a_is v).

End Linear.

(** The same network behind a builder that refuses fewer than two input
    features. *)
Module Wide.

Definition build (n_features : nat) : exn + Linear.unit_ :=
  if Nat.ltb n_features 2 then inl ValueError else Linear.build n_features.

Definition torch : Torch := {|
  scalar := Z;
  float0 := 0%Z;
  nn_module := Linear.unit_;
  optim := Linear.sgd;
  output := Linear.out;
  loss := Linear.sq_loss;
  params := list Z * Z;
  build_fn := build;
  optimizer_fn := Linear.make_optimizer;
  train := Linear.set_training true;
  eval := Linear.set_training false;
  forward := Linear.call_unit;
  loss_fn := Linear.squared_error;
  backward := Linear.backprop;
  zero_grad := Linear.clear_grad;
  step := Linear.descend;
  item := fun p => inr (Linear.value p);
  parameters := fun n => (Linear.weights n, Linear.bias n)
|}.

(** [predict_one] on a feature map with the keys [a] and, when [two] is
    set, [b]. *)
Definition predict (two : bool) : @call torch :=
  @PredictOne torch
    (if two then [("a"%string, PyFloat 1%Z); ("b"%string, PyFloat 2%Z)]
     else [("a"%string, PyFloat 1%Z)]).

End Wide.

(** ** Notions the statements use *)

(** The adapter has its network and its optimizer. *)
Definition initialized `{Torch} (s : estimator) : Prop :=
  (exists n, net s = Some n) /\ (exists o, optimizer s = Some o).

(** The construction at the head of a method did not raise: it left the
    adapter [s0] and made the library calls [t0]. *)
Definition constructed `{Torch} (x : dict scalar) (s s0 : estimator) (t0 : list event) : Prop :=
  if_net_is_None (_init_net (len x)) s = (s0, t0, inr tt).

(** The training step of both adapters: [self.net.train()] and then the
    body that [Regressor._learn_one] and [RollingRegressor._learn_window]
    have in common, line by line. *)
Definition train_step `{Torch} (x y : tensor scalar) : M unit :=
  net_train ;;
  optimizer_zero_grad ;;
  y_pred <- net_call x ;;
  l <- loss_call y_pred y ;;
  loss_backward l ;;
  optimizer_step.

(** The result of a [learn_one] method from that of its training step. *)
Definition learned `{Torch} (t0 : list event) (r : estimator * list event * (exn + unit))
  : estimator * list event * (exn + self_ref) :=
  (post r, t0 ++ calls r,
   match outcome r with inl e => inl e | inr _ => inr Self end).

(** The rows of the [learn_one] calls of a run, in call order. *)
Definition learned_rows `{Torch} (cs : list call) : list (list (pyval scalar)) :=
  flat_map (fun c => match c with
                     | LearnOne x _ => [map snd x]
                     | PredictOne _ => []
                     end) cs.

(** Whether every call of [t] that uses the network or the optimizer
    comes after a call to each of the two builders; [b] and [o] tell
    whether the builders were called before [t]. *)
Fixpoint used_after_built `{Torch} (b o : bool) (t : list event) : bool :=
  match t with
  | [] => true
  | EvBuild _ :: t' => used_after_built true o t'
  | EvOptimizer :: t' => used_after_built b true t'
  | e :: t' => (negb (uses_net e) || (b && o)) && used_after_built b o t'
  end.

(** A network whose evaluation is stateless: switching to evaluation mode
    keeps the parameter values and is idempotent, and a forward pass in
    evaluation mode leaves the module as it is. *)
Class StatelessEval `{Torch} : Prop := {
  eval_parameters : forall n, parameters (eval n) = parameters n;
  eval_idempotent : forall n, eval (eval n) = eval n;
  eval_forward : forall n x, fst (forward (eval n) x) = eval n
}.

(** Of the library calls of a training step only the optimizer step moves
    the parameters: the switch to training mode, the gradient reset, the
    forward pass and the backward pass keep their values, and the gradient
    reset keeps the optimizer. *)
Class ParametersFrame `{Torch} : Prop := {
  train_parameters : forall n, parameters (train n) = parameters n;
  zero_grad_parameters : forall o n, parameters (snd (zero_grad o n)) = parameters n;
  zero_grad_optimizer : forall o n, fst (zero_grad o n) = o;
  forward_parameters : forall n x, parameters (fst (forward n x)) = parameters n;
  backward_parameters : forall l n, parameters (fst (backward l n)) = parameters n
}.

(** ** Notions the further properties use *)

(** The calls of a training step that follow the conversions. *)
Definition is_training `{Torch} (e : event) : bool :=
  match e with
  | EvTrain | EvZeroGrad | EvLoss _ | EvBackward | EvStep => true
  | _ => false
  end.

(** How many of the library calls [t] satisfy [p]. *)
Definition count_events `{Torch} (p : event -> bool) (t : list event) : nat :=
  length (filter p t).

(** The library calls of a whole run, in order. *)
Definition run_trace `{Torch} (run : estimator * list (list event * returned))
  : list event :=
  concat (map fst (snd run)).

(** The number of rows in the window buffer. *)
Definition rows `{Torch} (s : estimator) : Z := Z.of_nat (length (_x_window s)).

(** A [learn_one] call that returned. *)
Definition learned_self `{Torch} (r : returned) : bool :=
  match r with
  | Learned (inr _) => true
  | _ => false
  end.

(** The library calls of a training step on the tensors [x] and [y] that
    nothing interrupts. *)
Definition training_calls `{Torch} (x y : tensor scalar) : list event :=
  [EvTrain; EvZeroGrad; EvForward x; EvLoss y; EvBackward; EvStep].

(** What [predict_one] hands back when it made no call to the network. *)
Definition placeholder_or_raise `{Torch} (tr : list event * returned) : Prop :=
  match snd tr with
  | Predicted o =>
      existsb uses_net (fst tr) = false /\ (o = inr float0 \/ exists e, o = inl e)
  | Learned _ => True
  end.

(** ** Tactics *)

(** Unfolds the monad and the library calls of a method body. *)
Ltac unfold_calls :=
  unfold Regressor._learn_one, RollingRegressor._learn_window,
    RollingRegressor.x_window_append, net_train, net_eval, net_call,
    loss_call, loss_backward, optimizer_zero_grad, optimizer_step,
    output_item, self_net, self_optimizer, bind, ret, lift, emit, gets,
    modify, post, calls, outcome in *.

(** Splits on the next test or result the computation hangs on. *)
Ltac split_next :=
  match goal with
  | |- context [match ?r with inl _ => _ | inr _ => _ end] =>
      let E := fresh "E" in destruct r eqn:E; simpl in *
  | |- context [match ?o with Some _ => _ | None => _ end] =>
      let E := fresh "E" in destruct o eqn:E; simpl in *
  | |- context [if ?b then _ else _] =>
      let E := fresh "E" in destruct b eqn:E; simpl in *
  end.

(** ** Reasoning about method calls *)

Section Calls.

Context `{Torch}.

Lemma bind_ok {A B} (m : M A) (k : A -> M B) s s1 t1 a :
  m s = (s1, t1, inr a) ->
  bind m k s = (post (k a s1), t1 ++ calls (k a s1), outcome (k a s1)).
Proof.
  intros Hm. unfold bind, post, calls, outcome. rewrite Hm.
  destruct (k a s1) as [[s2 t2] r]. reflexivity.
Qed.

Lemma bind_raise {A B} (m : M A) (k : A -> M B) s s1 t1 e :
  m s = (s1, t1, inl e) ->
  bind m k s = (s1, t1, inl e).
Proof.
  intros Hm. unfold bind. rewrite Hm. reflexivity.
Qed.

Lemma constructed_cases x s s0 t0 :
  constructed x s s0 t0 ->
  (exists n, net s = Some n /\ s0 = s /\ t0 = []) \/
  (net s = None /\
   exists n o, build_fn (len x) = inr n /\ optimizer_fn n = inr o /\
               s0 = set_optimizer o (set_net n s) /\
               t0 = [EvBuild (len x); EvOptimizer]).
Proof.
  unfold constructed, if_net_is_None.
  destruct (net s) as [n|] eqn:En.
  - intros E. inversion E; subst. left. exists n. auto.
  - unfold _init_net, bind, emit, lift, modify. simpl.
    destruct (build_fn (len x)) as [e|n] eqn:Eb; simpl; [discriminate|].
    destruct (optimizer_fn n) as [e|o] eqn:Eo; simpl; [discriminate|].
    intros E. inversion E; subst. right. split; [reflexivity|].
    exists n, o. auto.
Qed.

Lemma constructed_initialized_id x s :
  (exists n, net s = Some n) -> constructed x s s [].
Proof.
  intros [n En]. unfold constructed, if_net_is_None. rewrite En. reflexivity.
Qed.

Lemma constructed_frame x s s0 t0 :
  constructed x s s0 t0 ->
  _x_window s0 = _x_window s /\ window_size s0 = window_size s /\
  append_predict s0 = append_predict s /\ (exists n, net s0 = Some n) /\
  forallb is_construction t0 = true.
Proof.
  intros Hc. destruct (constructed_cases Hc) as [(n & En & -> & ->)|(En & n & o & _ & _ & -> & ->)].
  - repeat split; eauto.
  - simpl. repeat split; eauto.
Qed.

End Calls.

(** ** Regressor.learn_one *)

(** C7: a call of [Regressor.learn_one x y] with a numeric feature map and
    a numeric target, on which the forward pass, the loss and the backward
    pass do not raise, converts [x] and [y] to tensors, sets training mode,
    resets the gradients, runs one forward pass on the tensor of [x],
    computes the loss against the tensor of [y], backpropagates, applies
    exactly one optimizer step, in this order, and returns [self]. *)
Theorem regressor_learn_one_trains_once `{Torch} :
  forall (s s0 : estimator) t0 x y n o tx ty p l,
    constructed x s s0 t0 ->
    net s0 = Some n ->
    optimizer s0 = Some o ->
    dict2tensor x = inr tx ->
    scalar2tensor y = inr ty ->
    let o1 := fst (zero_grad o (train n)) in
    let n1 := snd (zero_grad o (train n)) in
    let n2 := fst (forward n1 tx) in
    let n3 := fst (backward l n2) in
    snd (forward n1 tx) = inr p ->
    loss_fn p ty = inr l ->
    snd (backward l n2) = inr tt ->
    Regressor.learn_one x y s =
      (set_net (snd (step o1 n3)) (set_optimizer (fst (step o1 n3)) s0),
       t0 ++ [EvTrain; EvZeroGrad; EvForward tx; EvLoss ty; EvBackward; EvStep],
       inr Self).
Proof.
  intros s s0 t0 x y n o tx ty p l Hc En Eo Ex Ey o1 n1 n2 n3 Ef El Eb.
  unfold Regressor.learn_one. erewrite bind_ok by exact Hc.
  unfold_calls. rewrite Ex, Ey. simpl. rewrite En. simpl. rewrite Eo. simpl.
  fold o1 n1. rewrite Ef. simpl. fold n2. rewrite El. simpl.
  rewrite Eb. simpl. fold n3.
  destruct s0; reflexivity.
Qed.

(** ** The bounded buffer *)

Section Buffer.

Context {A : Type}.

Lemma lastn_length k (l : list A) : length (lastn k l) = Nat.min k (length l).
Proof. unfold lastn. rewrite length_skipn. lia. Qed.

Lemma lastn_all k (l : list A) : length l <= k -> lastn k l = l.
Proof.
  unfold lastn. intros Hl. replace (length l - k) with 0 by lia. reflexivity.
Qed.

Lemma lastn_app_drop k (a c : list A) :
  k <= length c -> lastn k (a ++ c) = lastn k c.
Proof.
  unfold lastn. intros Hk. rewrite length_app, skipn_app.
  rewrite skipn_all2 by lia. simpl. f_equal. lia.
Qed.

(** Keeping the last [k] rows on the way does not change the last [k]
    rows at the end. *)
Lemma lastn_lastn_app k (a b : list A) :
  lastn k (lastn k a ++ b) = lastn k (a ++ b).
Proof.
  destruct (Nat.le_gt_cases (length a) k) as [Hle|Hgt].
  - rewrite (lastn_all a Hle). reflexivity.
  - pose proof (firstn_skipn (length a - k) a) as Ha. fold (lastn k a) in Ha.
    transitivity (lastn k (firstn (length a - k) a ++ (lastn k a ++ b))).
    + symmetry. apply lastn_app_drop. rewrite length_app, lastn_length. lia.
    + rewrite app_assoc, Ha. reflexivity.
Qed.

Lemma bounded_append_length m (w : list A) r :
  length (bounded_append m w r) = Nat.min (Z.to_nat m) (length w + 1).
Proof.
  unfold bounded_append. rewrite lastn_length, length_app. reflexivity.
Qed.


(** At its capacity the buffer takes the row and lets its oldest row go. *)
Lemma bounded_append_full m (w : list A) r :
  Z.of_nat (length w) = m -> (0 < m)%Z -> bounded_append m w r = tl w ++ [r].
Proof.
  intros Hlen Hpos. unfold bounded_append, lastn.
  rewrite length_app. simpl.
  replace (length w + 1 - Z.to_nat m) with 1 by lia.
  destruct w as [|a w]; [simpl in Hlen; lia|reflexivity].
Qed.

(** With room for a row at all, the appended row is the last one. *)
Lemma bounded_append_last m (w : list A) r :
  (0 < m)%Z -> exists kept, bounded_append m w r = kept ++ [r].
Proof.
  intros Hpos. unfold bounded_append, lastn. rewrite length_app, skipn_app. simpl.
  exists (skipn (length w + 1 - Z.to_nat m) w).
  replace (length w + 1 - Z.to_nat m - length w) with 0 by lia. reflexivity.
Qed.

(** The buffer holds [window_size] rows after an append exactly when it
    held [window_size - 1] rows or more before. *)
Lemma bounded_append_fills m (w : list A) r :
  (0 <= m)%Z ->
  (Z.of_nat (length (bounded_append m w r)) = m <->
   (m <= Z.of_nat (length w) + 1)%Z).
Proof.
  intros Hm. rewrite bounded_append_length. lia.
Qed.

End Buffer.
(** ** RollingRegressor.predict_one *)

Section RollingPredict.

Context `{Torch}.

(** The buffer does not hold exactly [window_size] rows: the placeholder
    is returned and nothing but the construction has happened. *)
Lemma rolling_predict_one_placeholder (s s0 : estimator) t0 x :
  constructed x s s0 t0 ->
  Z.of_nat (length (_x_window s)) <> window_size s ->
  RollingRegressor.predict_one x s = (s0, t0, inr float0).
Proof.
  intros Hc Hlen. destruct (constructed_frame Hc) as (Ew & Es & _).
  unfold RollingRegressor.predict_one. erewrite bind_ok by exact Hc.
  unfold_calls. rewrite Ew, Es.
  destruct (Z.eqb_spec (Z.of_nat (length (_x_window s))) (window_size s)) as [E|E];
    [contradiction|].
  simpl. rewrite app_nil_r. reflexivity.
Qed.

(** The buffer is full and [append_predict] is off: [x] is rebound to
    the copy of the buffer, [x.values()] raises, and the call ends there. *)
Lemma rolling_predict_one_copy_branch (s s0 : estimator) t0 x :
  constructed x s s0 t0 ->
  Z.of_nat (length (_x_window s)) = window_size s ->
  append_predict s = false ->
  RollingRegressor.predict_one x s = (s0, t0, inl AttributeError).
Proof.
  intros Hc Hlen Hap. destruct (constructed_frame Hc) as (Ew & Es & Ea & _).
  unfold RollingRegressor.predict_one. erewrite bind_ok by exact Hc.
  unfold_calls. rewrite Ew, Es, Hlen, Z.eqb_refl.
  simpl. rewrite Ea, Hap. simpl. rewrite app_nil_r. reflexivity.
Qed.

(** The buffer is full and [append_predict] is on. *)
Lemma rolling_predict_one_append_branch (s s0 : estimator) t0 x n tx :
  constructed x s s0 t0 ->
  net s0 = Some n ->
  Z.of_nat (length (_x_window s)) = window_size s ->
  append_predict s = true ->
  list2tensor (bounded_append (window_size s) (_x_window s) (map snd x)) = inr tx ->
  RollingRegressor.predict_one x s =
    (set_net (fst (forward (eval n) tx))
       (set_x_window (bounded_append (window_size s) (_x_window s) (map snd x)) s0),
     t0 ++ EvEval :: EvForward tx ::
       match snd (forward (eval n) tx) with inl _ => [] | inr _ => [EvItem] end,
     match snd (forward (eval n) tx) with inl e => inl e | inr p => item p end).
Proof.
  intros Hc En Hlen Hap Et. destruct (constructed_frame Hc) as (Ew & Es & Ea & _).
  unfold RollingRegressor.predict_one. erewrite bind_ok by exact Hc.
  unfold_calls. rewrite Ew, Es, Hlen, Z.eqb_refl.
  simpl. rewrite Ea, Hap. simpl. rewrite ?Ew, ?Es, Et. simpl. rewrite En. simpl.
  destruct (snd (forward (eval n) tx)) as [e|p]; simpl;
    destruct s0; reflexivity.
Qed.

(** The buffer is full, [append_predict] is on, and the buffer with the
    row does not convert: the row stays appended. *)
Lemma rolling_predict_one_append_ragged (s s0 : estimator) t0 x e :
  constructed x s s0 t0 ->
  Z.of_nat (length (_x_window s)) = window_size s ->
  append_predict s = true ->
  list2tensor (bounded_append (window_size s) (_x_window s) (map snd x)) = inl e ->
  RollingRegressor.predict_one x s =
    (set_x_window (bounded_append (window_size s) (_x_window s) (map snd x)) s0, t0, inl e).
Proof.
  intros Hc Hlen Hap Et. destruct (constructed_frame Hc) as (Ew & Es & Ea & _).
  unfold RollingRegressor.predict_one. erewrite bind_ok by exact Hc.
  unfold_calls. rewrite Ew, Es, Hlen, Z.eqb_refl.
  simpl. rewrite Ea, Hap. simpl. rewrite ?Ew, ?Es, Et. simpl.
  rewrite app_nil_r. reflexivity.
Qed.

(** With [append_predict] on and a full buffer the row is appended even
    when the conversion of the buffer raises. *)
Lemma rolling_predict_one_append_row (s s0 : estimator) t0 x :
  constructed x s s0 t0 ->
  Z.of_nat (length (_x_window s)) = window_size s ->
  append_predict s = true ->
  _x_window (post (RollingRegressor.predict_one x s)) = bounded_append (window_size s) (_x_window s) (map snd x).
Proof.
  intros Hc Hlen Hap. destruct (constructed_frame Hc) as (Ew & Es & Ea & [n En] & _).
  destruct (list2tensor (bounded_append (window_size s) (_x_window s) (map snd x))) as [e|tx] eqn:Et.
  - rewrite (rolling_predict_one_append_ragged Hc Hlen Hap Et). reflexivity.
  - rewrite (rolling_predict_one_append_branch Hc En Hlen Hap Et). reflexivity.
Qed.

End RollingPredict.

(** C8, as stated, fails: with a window of 1 and [append_predict] on,
    [learn_one({a:1}, 10)] fills the buffer with [[1]]; [predict_one({a:2})]
    appends [2], the buffer lets [1] go and holds one row, [[2]], not two,
    and the forward pass runs on the tensor [[2]]. *)
Lemma rolling_predict_one_append_keeps_size :
  let s := fst (run_calls Rolling [Linear.learn 1 10] (Linear.fresh 1 true)) in
  let r := RollingRegressor.predict_one (H:=Linear.torch) (Linear.a_is 2) s in
  append_predict s = true /\
  Z.of_nat (length (_x_window s)) = window_size s /\
  _x_window (post r) = [[PyFloat 2%Z]] /\
  Z.of_nat (length (_x_window (post r))) <> (window_size s + 1)%Z /\
  calls r = [EvEval; EvForward [[2%Z]]; EvItem].
Proof.
  cbv zeta. repeat split. discriminate.
Qed.

(** C8, amended: a call of [RollingRegressor.predict_one] with
    [append_predict] on and a buffer of exactly [window_size] rows appends
    the values of the current example to the stored buffer, which lets its
    oldest row go and still holds [window_size] rows, and runs the forward
    pass on the tensor of that buffer with the network in evaluation mode;
    the result of the call is the [item] of that forward pass.  The change
    of the buffer stays. *)
Theorem rolling_predict_one_append_slides `{Torch} :
  forall (s s0 : estimator) t0 x,
    constructed x s s0 t0 ->
    append_predict s = true ->
    Z.of_nat (length (_x_window s)) = window_size s ->
    let r := RollingRegressor.predict_one x s in
    let w := bounded_append (window_size s) (_x_window s) (map snd x) in
    _x_window (post r) = w /\
    Z.of_nat (length (_x_window (post r))) = window_size s /\
    ((0 < window_size s)%Z -> w = tl (_x_window s) ++ [map snd x]) /\
    exists n, net s0 = Some n /\
      forall tx, list2tensor w = inr tx ->
        net (post r) = Some (fst (forward (eval n) tx)) /\
        (forall p, snd (forward (eval n) tx) = inr p ->
           calls r = t0 ++ [EvEval; EvForward tx; EvItem] /\ outcome r = item p) /\
        (forall e, snd (forward (eval n) tx) = inl e ->
           calls r = t0 ++ [EvEval; EvForward tx] /\ outcome r = inl e).
Proof.
  intros s s0 t0 x Hc Hap Hlen r w.
  assert (Hw : _x_window (post r) = w)
    by (apply (rolling_predict_one_append_row Hc Hlen Hap)).
  split; [exact Hw|]. split; [|split].
  - rewrite Hw. unfold w. rewrite bounded_append_length. lia.
  - intros Hpos. apply bounded_append_full; assumption.
  - destruct (constructed_frame Hc) as (_ & _ & _ & [n En] & _).
    exists n. split; [exact En|]. intros tx Et.
    unfold r. rewrite (rolling_predict_one_append_branch Hc En Hlen Hap Et).
    unfold post, calls, outcome. simpl. split; [reflexivity|].
    split; intros v Ev; rewrite Ev; auto.
Qed.

(** C3: in the scenario of the specification (a window of 2,
    [append_predict] off, two [learn_one] calls) the buffer is full, and
    stays so; the [predict_one] calls that follow make no call to the
    network: each raises [AttributeError] at [x.values()] and leaves the
    adapter as it is, where the claim has the prediction invoke the
    network. *)
Theorem rolling_predict_one_full_skips_network :
  let s := fst (run_calls Rolling
                  [Linear.learn 1 10; Linear.learn 2 20]
                  (Linear.fresh 2 false)) in
  Z.of_nat (length (_x_window s)) = window_size s /\
  run_calls Rolling [Linear.predict 3; Linear.predict 4] s =
    (s, [([], Predicted (inl AttributeError));
         ([], Predicted (inl AttributeError))]).
Proof.
  cbv zeta. split; reflexivity.
Qed.

(** C1: the scenario of the specification (a window of 2, [append_predict]
    off, [learn_one({a:1}, 10)], [learn_one({a:2}, 20)]) leaves the buffer
    [[1],[2]]; [predict_one({a:3})] then raises [AttributeError], because
    [x] is rebound to the copy of the buffer before [x.values()] is
    evaluated: no forward pass runs and no scalar is returned.  The stored
    buffer, and the whole adapter, are as before the call. *)
Theorem rolling_predict_one_copy_raises :
  let s := fst (run_calls Rolling
                  [Linear.learn 1 10; Linear.learn 2 20]
                  (Linear.fresh 2 false)) in
  append_predict s = false /\
  Z.of_nat (length (_x_window s)) = window_size s /\
  _x_window s = [[PyFloat 1%Z]; [PyFloat 2%Z]] /\
  RollingRegressor.predict_one (H:=Linear.torch) (Linear.a_is 3) s =
    (s, [], inl AttributeError).
Proof.
  cbv zeta. repeat split.
Qed.

(** ** The training step *)

Section TrainingStep.

Context `{Torch}.

Lemma learn_one_eq x y :
  (net_train ;; Regressor._learn_one x y) = train_step x y.
Proof. reflexivity. Qed.

Lemma learn_window_eq x y :
  (net_train ;; RollingRegressor._learn_window x y) = train_step x y.
Proof. reflexivity. Qed.

Lemma train_step_frame x y s :
  _x_window (post (train_step x y s)) = _x_window s /\
  window_size (post (train_step x y s)) = window_size s /\
  append_predict (post (train_step x y s)) = append_predict s.
Proof.
  unfold train_step. unfold_calls. simpl.
  repeat split_next; auto.
Qed.

Lemma train_step_returns x y s :
  outcome (train_step x y s) = inr tt ->
  calls (train_step x y s) =
    [EvTrain; EvZeroGrad; EvForward x; EvLoss y; EvBackward; EvStep].
Proof.
  unfold train_step. unfold_calls. simpl.
  repeat split_next; intros E'; try discriminate E'; reflexivity.
Qed.

Lemma train_step_raises x y s e :
  outcome (train_step x y s) = inl e ->
  existsb is_step (calls (train_step x y s)) = false.
Proof.
  unfold train_step. unfold_calls. simpl.
  repeat split_next; intros E'; try discriminate E'; reflexivity.
Qed.

Lemma train_step_initialized x y s :
  initialized s ->
  initialized (post (train_step x y s)) /\
  existsb is_construction (calls (train_step x y s)) = false.
Proof.
  intros [[n En] [o Eo]].
  unfold train_step. unfold_calls. simpl. rewrite En. simpl. rewrite Eo. simpl.
  unfold initialized.
  repeat split_next; simpl; eauto 6.
Qed.

End TrainingStep.

(** ** The methods, after the construction at their head *)

Section Methods.

Context `{Torch}.

(** The construction either succeeds or raises; when it raises, the
    adapter is as it was, without a network. *)
Lemma construction_cases x (s : estimator) :
  (exists s0 t0, constructed x s s0 t0) \/
  (exists t1 e, if_net_is_None (_init_net (len x)) s = (s, t1, inl e) /\
                net s = None /\ forallb is_construction t1 = true).
Proof.
  unfold constructed, if_net_is_None.
  destruct (net s) as [n|] eqn:En.
  - left. eauto.
  - unfold _init_net, bind, emit, lift, modify. simpl.
    destruct (build_fn (len x)) as [e|n]; simpl.
    + right. exists [EvBuild (len x)], e. auto.
    + destruct (optimizer_fn n) as [e|o]; simpl.
      * right. exists [EvBuild (len x); EvOptimizer], e. auto.
      * left. eauto.
Qed.

Lemma bind_assoc {A B C} (m : M A) (k : A -> M B) (h : B -> M C) s :
  bind (bind m k) h s = bind m (fun a => bind (k a) h) s.
Proof.
  unfold bind. destruct (m s) as [[s1 t1] [e|a]]; [reflexivity|].
  destruct (k a s1) as [[s2 t2] [e|b]]; [reflexivity|].
  destruct (h b s2) as [[s3 t3] r]. rewrite app_assoc. reflexivity.
Qed.

Lemma learned_tail (m : M unit) s :
  bind m (fun _ => ret Self) s = learned [] (m s).
Proof.
  unfold bind, ret, learned, post, calls, outcome.
  destruct (m s) as [[s1 t1] [e|[]]]; simpl; [reflexivity|].
  rewrite app_nil_r. reflexivity.
Qed.

Lemma bind_lift_ok {A B} (a : A) (k : A -> M B) s :
  bind (lift (inr a)) k s = k a s.
Proof. unfold bind, lift. destruct (k a s) as [[s2 t2] r]. reflexivity. Qed.

Lemma bind_lift_raise {A B} (e : exn) (k : A -> M B) s :
  bind (lift (inl e)) k s = (s, [], inl e).
Proof. reflexivity. Qed.

Lemma bind_gets {A B} (f : estimator -> A) (k : A -> M B) s :
  bind (gets f) k s = k (f s) s.
Proof. unfold bind, gets. destruct (k (f s) s) as [[s2 t2] r]. reflexivity. Qed.

Lemma bind_modify {B} (f : estimator -> estimator) (k : unit -> M B) s :
  bind (modify f) k s = k tt (f s).
Proof. unfold bind, modify. destruct (k tt (f s)) as [[s2 t2] r]. reflexivity. Qed.

Lemma regressor_learn_one_unfold (s s0 : estimator) t0 x y :
  constructed x s s0 t0 ->
  Regressor.learn_one x y s =
    match dict2tensor x with
    | inl e => (s0, t0, inl e)
    | inr tx =>
        match scalar2tensor y with
        | inl e => (s0, t0, inl e)
        | inr ty => learned t0 (train_step tx ty s0)
        end
    end.
Proof.
  intros Hc. unfold Regressor.learn_one. erewrite bind_ok by exact Hc.
  cbv beta.
  destruct (dict2tensor x) as [e|tx].
  { rewrite bind_lift_raise. unfold post, calls, outcome. simpl.
    rewrite app_nil_r. reflexivity. }
  rewrite bind_lift_ok.
  destruct (scalar2tensor y) as [e|ty].
  { rewrite bind_lift_raise. unfold post, calls, outcome. simpl.
    rewrite app_nil_r. reflexivity. }
  rewrite bind_lift_ok.
  rewrite <- (bind_assoc net_train (fun _ => Regressor._learn_one tx ty)
                (fun _ => ret Self) s0).
  rewrite learn_one_eq, learned_tail. reflexivity.
Qed.

Lemma rolling_learn_one_unfold (s s0 : estimator) t0 x y :
  constructed x s s0 t0 ->
  let w := bounded_append (window_size s) (_x_window s) (map snd x) in
  let s1 := set_x_window w s0 in
  RollingRegressor.learn_one x y s =
    if (Z.of_nat (length w) =? window_size s)%Z then
      match list2tensor w with
      | inl e => (s1, t0, inl e)
      | inr tx =>
          match scalar2tensor y with
          | inl e => (s1, t0, inl e)
          | inr ty => learned t0 (train_step tx ty s1)
          end
      end
    else (s1, t0, inr Self).
Proof.
  intros Hc w s1. destruct (constructed_frame Hc) as (Ew & Es & _).
  unfold RollingRegressor.learn_one. erewrite bind_ok by exact Hc.
  cbv beta. unfold RollingRegressor.x_window_append.
  change (py_values (PyDict x)) with (@inr exn _ (map snd x)).
  rewrite bind_lift_ok, bind_modify, bind_gets, bind_gets.
  rewrite learned_tail.
  change (_x_window
            (set_x_window
               (bounded_append (window_size s0) (_x_window s0) (map snd x)) s0))
    with (bounded_append (window_size s0) (_x_window s0) (map snd x)).
  change (window_size
            (set_x_window
               (bounded_append (window_size s0) (_x_window s0) (map snd x)) s0))
    with (window_size s0).
  rewrite Ew, Es. fold w. fold s1.
  destruct (Z.of_nat (length w) =? window_size s)%Z.
  - destruct (list2tensor w) as [e|tx].
    { rewrite bind_lift_raise. unfold learned, post, calls, outcome. simpl.
      rewrite app_nil_r. reflexivity. }
    rewrite bind_lift_ok.
    destruct (scalar2tensor y) as [e|ty].
    { rewrite bind_lift_raise. unfold learned, post, calls, outcome. simpl.
      rewrite app_nil_r. reflexivity. }
    rewrite bind_lift_ok. rewrite learn_window_eq. reflexivity.
  - unfold learned, ret, post, calls, outcome. simpl.
    rewrite app_nil_r. reflexivity.
Qed.

Lemma regressor_predict_one_unfold (s s0 : estimator) t0 x n :
  constructed x s s0 t0 ->
  net s0 = Some n ->
  Regressor.predict_one x s =
    match dict2tensor x with
    | inl e => (s0, t0, inl e)
    | inr tx =>
        (set_net (fst (forward (eval n) tx)) s0,
         t0 ++ EvEval :: EvForward tx ::
           match snd (forward (eval n) tx) with inl _ => [] | inr _ => [EvItem] end,
         match snd (forward (eval n) tx) with inl e => inl e | inr p => item p end)
    end.
Proof.
  intros Hc En. unfold Regressor.predict_one. erewrite bind_ok by exact Hc.
  unfold_calls.
  destruct (dict2tensor x) as [e|tx]; simpl; [rewrite app_nil_r; reflexivity|].
  rewrite En. simpl.
  destruct (snd (forward (eval n) tx)) as [e|p]; simpl; destruct s0; reflexivity.
Qed.

(** A training step that nothing interrupts. *)
Lemma train_step_result x y (s : estimator) n o p l :
  net s = Some n ->
  optimizer s = Some o ->
  let o1 := fst (zero_grad o (train n)) in
  let n1 := snd (zero_grad o (train n)) in
  let n2 := fst (forward n1 x) in
  let n3 := fst (backward l n2) in
  snd (forward n1 x) = inr p ->
  loss_fn p y = inr l ->
  snd (backward l n2) = inr tt ->
  train_step x y s =
    (set_net (snd (step o1 n3)) (set_optimizer (fst (step o1 n3)) s),
     training_calls x y, inr tt).
Proof.
  intros En Eo o1 n1 n2 n3 Ef El Eb.
  unfold train_step, training_calls. unfold_calls. simpl.
  rewrite En. simpl. rewrite Eo. simpl.
  fold o1 n1. rewrite Ef. simpl. fold n2. rewrite El. simpl.
  rewrite Eb. simpl. fold n3. destruct s; reflexivity.
Qed.

End Methods.

(** ** RollingRegressor.learn_one *)

(** C2: a call of [RollingRegressor.learn_one] appends the values of the
    current example to the window buffer (as its last row, the buffer
    keeping its last [window_size] rows).  If the buffer then does not
    hold exactly [window_size] rows, the call only buffers: it makes no
    call to the network and returns [self].  If it does, the call is the
    training step on the tensor of the entire buffer and the tensor of the
    target of this call only: it sets training mode, resets the gradients,
    runs one forward pass on the whole buffer, computes the loss against
    the target of this call, backpropagates and applies one optimizer
    step, and the adapter holds the network and the optimizer that step
    leaves.  An optimizer step is applied only when the buffer holds
    [window_size] rows after the append. *)
Theorem rolling_learn_one_trains_iff_full `{Torch} :
  forall (s s0 : estimator) t0 x y,
    constructed x s s0 t0 ->
    let r := RollingRegressor.learn_one x y s in
    let w := bounded_append (window_size s) (_x_window s) (map snd x) in
    _x_window (post r) = w /\
    ((0 < window_size s)%Z -> exists kept, w = kept ++ [map snd x]) /\
    (Z.of_nat (length w) <> window_size s ->
       r = (set_x_window w s0, t0, inr Self)) /\
    (Z.of_nat (length w) = window_size s ->
       forall n o tx ty p l,
         net s0 = Some n ->
         optimizer s0 = Some o ->
         list2tensor w = inr tx ->
         scalar2tensor y = inr ty ->
         let o1 := fst (zero_grad o (train n)) in
         let n1 := snd (zero_grad o (train n)) in
         let n2 := fst (forward n1 tx) in
         let n3 := fst (backward l n2) in
         snd (forward n1 tx) = inr p ->
         loss_fn p ty = inr l ->
         snd (backward l n2) = inr tt ->
         r = (set_net (snd (step o1 n3))
                (set_optimizer (fst (step o1 n3)) (set_x_window w s0)),
              t0 ++ [EvTrain; EvZeroGrad; EvForward tx; EvLoss ty;
                     EvBackward; EvStep],
              inr Self)) /\
    (Z.of_nat (length w) = window_size s ->
       outcome r = inr Self ->
       exists tx ty,
         list2tensor w = inr tx /\ scalar2tensor y = inr ty /\
         calls r = t0 ++ [EvTrain; EvZeroGrad; EvForward tx; EvLoss ty;
                          EvBackward; EvStep]) /\
    (existsb is_step (calls r) = true -> Z.of_nat (length w) = window_size s).
Proof.
  intros s s0 t0 x y Hc r w.
  pose proof (rolling_learn_one_unfold y Hc) as Hr. cbv zeta in Hr.
  fold w in Hr. fold r in Hr.
  assert (Ht0 : existsb is_step t0 = false).
  { destruct (constructed_cases Hc) as [(n & _ & _ & ->)|(_ & n & o & _ & _ & _ & ->)];
      reflexivity. }
  split; [|split; [intros Hpos; apply bounded_append_last; exact Hpos|]].
  { rewrite Hr.
    destruct (Z.of_nat (length w) =? window_size s)%Z; [|reflexivity].
    destruct (list2tensor w) as [e|tx]; [reflexivity|].
    destruct (scalar2tensor y) as [e|ty]; [reflexivity|].
    unfold learned. unfold post at 1. simpl.
    apply (train_step_frame tx ty (set_x_window w s0)). }
  destruct (Z.eqb_spec (Z.of_nat (length w)) (window_size s)) as [Hlen|Hlen].
  - split; [intros Hne; contradiction|]. split; [|split].
    + intros _ n o tx ty p l En Eo Ex Ey o1 n1 n2 n3 Ef El Eb.
      rewrite Hr, Ex, Ey.
      rewrite (train_step_result tx ty (set_x_window w s0) En Eo Ef El Eb).
      reflexivity.
    + intros _. rewrite Hr.
      destruct (list2tensor w) as [e|tx]; [discriminate|].
      destruct (scalar2tensor y) as [e|ty]; [discriminate|].
      unfold learned, outcome at 1, calls at 1. simpl. intros Ho.
      exists tx, ty. repeat split.
      rewrite train_step_returns; [reflexivity|].
      destruct (outcome (train_step tx ty (set_x_window w s0))) as [e|[]];
        [discriminate|reflexivity].
    + intros _. exact Hlen.
  - split; [intros _; exact Hr|]. split; [|split].
    + intros Heq. contradiction.
    + intros Heq. contradiction.
    + rewrite Hr. unfold calls. simpl. rewrite Ht0. discriminate.
Qed.


(** ** Counting library calls *)

Section Counting.

Context `{Torch}.

Lemma count_events_app p (t1 t2 : list event) :
  count_events p (t1 ++ t2) = count_events p t1 + count_events p t2.
Proof. unfold count_events. rewrite filter_app, length_app. reflexivity. Qed.

Lemma count_events_none p (t : list event) :
  existsb p t = false -> count_events p t = 0.
Proof.
  unfold count_events. induction t as [|e t IH]; simpl; [reflexivity|].
  intros He. apply orb_false_iff in He. destruct He as [He Ht].
  rewrite He. apply IH. exact Ht.
Qed.

Lemma count_events_some p (t : list event) :
  existsb p t = true -> 1 <= count_events p t.
Proof.
  unfold count_events. induction t as [|e t IH]; simpl; [discriminate|].
  destruct (p e); simpl; [lia|]. exact IH.
Qed.

Lemma existsb_count p (t : list event) :
  count_events p t = 0 -> existsb p t = false.
Proof.
  intros Hc. destruct (existsb p t) eqn:E; [|reflexivity].
  apply count_events_some in E. lia.
Qed.

(** The construction makes none of the calls [p] counts, when [p] rejects
    the two construction calls. *)
Lemma construction_counts_none p (t : list event) :
  (forall e, is_construction e = true -> p e = false) ->
  forallb is_construction t = true ->
  existsb p t = false.
Proof.
  intros Hp. induction t as [|e t IH]; simpl; [reflexivity|].
  intros Hall. apply andb_true_iff in Hall. destruct Hall as [He Ht].
  rewrite (Hp e He), (IH Ht). reflexivity.
Qed.

Lemma construction_not_training e : is_construction e = true -> is_training e = false.
Proof. destruct e; simpl; intros E; try discriminate E; reflexivity. Qed.

Lemma construction_not_forward e : is_construction e = true -> is_forward e = false.
Proof. destruct e; simpl; intros E; try discriminate E; reflexivity. Qed.

Lemma construction_not_step e : is_construction e = true -> is_step e = false.
Proof. destruct e; simpl; intros E; try discriminate E; reflexivity. Qed.

Lemma construction_not_uses_net e : is_construction e = true -> uses_net e = false.
Proof. destruct e; simpl; intros E; try discriminate E; reflexivity. Qed.

(** A training step makes the calls of [training_calls], in order, up to
    the one that raises. *)
Lemma train_step_prefix x y (s : estimator) :
  exists k, calls (train_step x y s) = firstn k (training_calls x y).
Proof.
  unfold train_step, training_calls. unfold_calls. simpl.
  repeat split_next;
    first [ exists 0; reflexivity | exists 1; reflexivity | exists 2; reflexivity
          | exists 3; reflexivity | exists 4; reflexivity | exists 5; reflexivity
          | exists 6; reflexivity ].
Qed.

Lemma training_prefix_counts x y k :
  count_events is_step (firstn k (training_calls x y)) <= 1 /\
  count_events is_forward (firstn k (training_calls x y)) <= 1 /\
  (forall t, In (EvForward t) (firstn k (training_calls x y)) -> t = x) /\
  (forall t, In (EvLoss t) (firstn k (training_calls x y)) -> t = y).
Proof.
  do 7 (destruct k as [|k]; [unfold count_events; simpl; repeat split; try lia;
       intros t Hin; repeat (destruct Hin as [Hin|Hin]; [congruence|]);
       contradiction|]).
  unfold count_events; simpl; repeat split; try lia;
    intros t Hin; repeat (destruct Hin as [Hin|Hin]; [congruence|]); contradiction.
Qed.

End Counting.

(** ** The shapes of a RollingRegressor call *)

Section RollingShapes.

Context `{Torch}.

(** [learn_one]: the construction raised; or the row was appended and
    the buffer does not hold [window_size] rows, and the call returns; or
    it does and a conversion raised; or it does and the call is the
    training step on the tensors of the buffer and of the target. *)
Lemma rolling_learn_one_shape x y (s : estimator) :
  let r := RollingRegressor.learn_one x y s in
  let w := bounded_append (window_size s) (_x_window s) (map snd x) in
  (exists t1 e, r = (s, t1, inl e) /\ net s = None /\
                forallb is_construction t1 = true) \/
  (exists s0 t0, constructed x s s0 t0 /\
     ((Z.of_nat (length w) <> window_size s /\
       r = (set_x_window w s0, t0, inr Self)) \/
      (Z.of_nat (length w) = window_size s /\
       exists e, r = (set_x_window w s0, t0, inl e)) \/
      (Z.of_nat (length w) = window_size s /\
       exists tx ty, list2tensor w = inr tx /\ scalar2tensor y = inr ty /\
                     r = learned t0 (train_step tx ty (set_x_window w s0))))).
Proof.
  intros r w.
  destruct (construction_cases x s) as [(s0 & t0 & Hc)|(t1 & e & Hg & En & Ht1)].
  - right. exists s0, t0. split; [exact Hc|].
    pose proof (rolling_learn_one_unfold y Hc) as Hr. cbv zeta in Hr.
    fold w in Hr. fold r in Hr. rewrite Hr.
    destruct (Z.eqb_spec (Z.of_nat (length w)) (window_size s)) as [E|E];
      [|left; split; [exact E|reflexivity]].
    right.
    destruct (list2tensor w) as [e|tx]; [left; split; [exact E|eexists; reflexivity]|].
    destruct (scalar2tensor y) as [e|ty]; [left; split; [exact E|eexists; reflexivity]|].
    right. split; [exact E|]. exists tx, ty. auto.
  - left. exists t1, e. split; [|split; [exact En|exact Ht1]].
    unfold r, RollingRegressor.learn_one. erewrite bind_raise by exact Hg.
    reflexivity.
Qed.

(** [predict_one]: the construction raised; or the buffer does not hold
    [window_size] rows and the placeholder is returned; or it does and,
    with [append_predict] off, the call raises; or, with [append_predict]
    on, the row is appended and the buffer either does not convert or is
    what the forward pass runs on. *)
Lemma rolling_predict_one_shape x (s : estimator) :
  let r := RollingRegressor.predict_one x s in
  let w := bounded_append (window_size s) (_x_window s) (map snd x) in
  (exists t1 e, r = (s, t1, inl e) /\ net s = None /\
                forallb is_construction t1 = true) \/
  (exists s0 t0, constructed x s s0 t0 /\
     ((rows s <> window_size s /\ r = (s0, t0, inr float0)) \/
      (rows s = window_size s /\ append_predict s = false /\
       r = (s0, t0, inl AttributeError)) \/
      (rows s = window_size s /\ append_predict s = true /\
       exists e, list2tensor w = inl e /\ r = (set_x_window w s0, t0, inl e)) \/
      (rows s = window_size s /\ append_predict s = true /\
       exists n tx, net s0 = Some n /\ list2tensor w = inr tx /\
         r = (set_net (fst (forward (eval n) tx)) (set_x_window w s0),
              t0 ++ EvEval :: EvForward tx ::
                match snd (forward (eval n) tx) with inl _ => [] | inr _ => [EvItem] end,
              match snd (forward (eval n) tx) with inl e => inl e | inr p => item p end)))).
Proof.
  intros r w. unfold rows.
  destruct (construction_cases x s) as [(s0 & t0 & Hc)|(t1 & e & Hg & En & Ht1)].
  - right. exists s0, t0. split; [exact Hc|].
    destruct (Z.eq_dec (Z.of_nat (length (_x_window s))) (window_size s)) as [E|E].
    + right. destruct (append_predict s) eqn:Ea.
      * right. destruct (list2tensor w) as [e|tx] eqn:Et.
        -- left. split; [exact E|]. split; [reflexivity|]. exists e.
           split; [reflexivity|].
           apply (rolling_predict_one_append_ragged Hc E Ea Et).
        -- right. split; [exact E|]. split; [reflexivity|].
           destruct (constructed_frame Hc) as (_ & _ & _ & [n En] & _).
           exists n, tx. split; [exact En|]. split; [reflexivity|].
           apply (rolling_predict_one_append_branch Hc En E Ea Et).
      * left. split; [exact E|]. split; [reflexivity|].
        apply (rolling_predict_one_copy_branch Hc E Ea).
    + left. split; [exact E|]. apply (rolling_predict_one_placeholder Hc E).
  - left. exists t1, e. split; [|split; [exact En|exact Ht1]].
    unfold r, RollingRegressor.predict_one. erewrite bind_raise by exact Hg.
    reflexivity.
Qed.

End RollingShapes.

(** ** What one RollingRegressor call does to the buffer and the network *)

Section RollingCall.

Context `{Torch}.

Lemma construction_no_forward (t0 : list event) x :
  forallb is_construction t0 = true -> ~ In (EvForward x) t0.
Proof.
  intros Hall Hin. rewrite forallb_forall in Hall.
  specialize (Hall _ Hin). discriminate Hall.
Qed.

(** A call is quiet (no training call, no forward pass), or it is the
    training step of a [learn_one] that leaves [window_size] rows, or it
    is the prediction of a [predict_one] on a buffer of [window_size]
    rows.  In each case the forward pass, if there is one, is on the
    tensor of the buffer the call leaves, and the buffer is the old one,
    perhaps with the row of the call appended. *)
Lemma rolling_call_summary c (s : estimator) :
  let r := run_call Rolling c s in
  let w := bounded_append (window_size s) (_x_window s) (map snd (features c)) in
  window_size (post r) = window_size s /\
  append_predict (post r) = append_predict s /\
  (_x_window (post r) = _x_window s \/ _x_window (post r) = w) /\
  ((existsb is_training (calls r) = false /\ existsb is_forward (calls r) = false) \/
   (rows (post r) = window_size s /\
    (exists x y, c = LearnOne x y) /\
    count_events is_step (calls r) <= 1 /\
    count_events is_forward (calls r) <= 1 /\
    exists tx, list2tensor (_x_window (post r)) = inr tx /\
               forall t', In (EvForward t') (calls r) -> t' = tx) \/
   (rows s = window_size s /\ rows (post r) = window_size s /\
    append_predict s = true /\ (exists x, c = PredictOne x) /\
    existsb is_training (calls r) = false /\
    count_events is_forward (calls r) = 1 /\
    exists tx, list2tensor (_x_window (post r)) = inr tx /\
               forall t', In (EvForward t') (calls r) -> t' = tx)).
Proof.
  destruct c as [x y|x]; unfold run_call, features; cbv zeta;
    change (calls (?p, ?t, ?o)) with t; change (post (?p, ?t, ?o)) with p.
  - destruct (rolling_learn_one_shape x y s)
      as [(t1 & e & -> & _ & Ht1)
         |(s0 & t0 & Hc & [(Hlen & ->)|[(Hlen & e & ->)
                                       |(Hlen & tx & ty & Ex & Ey & ->)]])];
      change (calls (?p, ?t, ?o)) with t; change (post (?p, ?t, ?o)) with p;
      try (destruct (constructed_frame Hc) as (Ew & Es & Ea & _ & Ht0)).
    + repeat split; auto. left. split.
      * apply construction_counts_none; [exact construction_not_training|exact Ht1].
      * apply construction_counts_none; [exact construction_not_forward|exact Ht1].
    + simpl. repeat split; auto. left. split.
      * apply construction_counts_none; [exact construction_not_training|exact Ht0].
      * apply construction_counts_none; [exact construction_not_forward|exact Ht0].
    + simpl. repeat split; auto. left. split.
      * apply construction_counts_none; [exact construction_not_training|exact Ht0].
      * apply construction_counts_none; [exact construction_not_forward|exact Ht0].
    + set (w := bounded_append (window_size s) (_x_window s) (map snd x)) in *.
      set (s1 := set_x_window w s0) in *.
      destruct (train_step_frame tx ty s1) as (Fw & Fs & Fa).
      destruct (train_step_prefix tx ty s1) as [k Hk].
      destruct (training_prefix_counts tx ty k) as (Cs & Cf & Cin & _).
      unfold learned. change (calls (?p, ?t, ?o)) with t.
      change (post (?p, ?t, ?o)) with p.
      rewrite Fw, Fs, Fa. simpl. repeat split; auto.
      right. left. unfold rows. rewrite Fw. simpl.
      split; [exact Hlen|]. split; [eauto|].
      rewrite !count_events_app, Hk.
      rewrite (count_events_none is_step t0)
        by (apply construction_counts_none;
            [exact construction_not_step|exact Ht0]).
      rewrite (count_events_none is_forward t0)
        by (apply construction_counts_none;
            [exact construction_not_forward|exact Ht0]).
      split; [exact Cs|]. split; [exact Cf|].
      exists tx. split; [exact Ex|].
      intros t' Hin. apply in_app_or in Hin. destruct Hin as [Hin|Hin].
      * exfalso. eapply construction_no_forward; eassumption.
      * apply Cin. exact Hin.
  - destruct (rolling_predict_one_shape x s)
      as [(t1 & e & -> & _ & Ht1)
         |(s0 & t0 & Hc &
           [(Hlen & ->)|[(Hlen & Hap & ->)|[(Hlen & Hap & e & Et & ->)
                                           |(Hlen & Hap & n & tx & En & Et & ->)]]])];
      change (calls (?p, ?t, ?o)) with t; change (post (?p, ?t, ?o)) with p;
      try (destruct (constructed_frame Hc) as (Ew & Es & Ea & _ & Ht0)).
    + repeat split; auto. left. split.
      * apply construction_counts_none; [exact construction_not_training|exact Ht1].
      * apply construction_counts_none; [exact construction_not_forward|exact Ht1].
    + repeat split; auto. left. split.
      * apply construction_counts_none; [exact construction_not_training|exact Ht0].
      * apply construction_counts_none; [exact construction_not_forward|exact Ht0].
    + repeat split; auto. left. split.
      * apply construction_counts_none; [exact construction_not_training|exact Ht0].
      * apply construction_counts_none; [exact construction_not_forward|exact Ht0].
    + simpl. repeat split; auto. left. split.
      * apply construction_counts_none; [exact construction_not_training|exact Ht0].
      * apply construction_counts_none; [exact construction_not_forward|exact Ht0].
    + simpl. repeat split; auto. right. right.
      split; [exact Hlen|]. unfold rows in *. simpl.
      split; [rewrite bounded_append_length; lia|].
      split; [exact Hap|]. split; [eauto|].
      split; [|split].
      * rewrite existsb_app.
        rewrite (construction_counts_none is_training t0 construction_not_training Ht0).
        destruct (snd (forward (eval n) tx)); reflexivity.
      * rewrite count_events_app.
        rewrite (count_events_none is_forward t0)
          by (apply construction_counts_none;
              [exact construction_not_forward|exact Ht0]).
        destruct (snd (forward (eval n) tx)); reflexivity.
      * exists tx. split; [exact Et|].
        intros t' Hin. apply in_app_or in Hin. destruct Hin as [Hin|Hin].
        -- exfalso. eapply construction_no_forward; eassumption.
        -- destruct (snd (forward (eval n) tx)); simpl in Hin;
             repeat (destruct Hin as [Hin|Hin]; [congruence|]); contradiction.
Qed.

End RollingCall.

(** ** Runs of calls *)

Section Runs.

Context `{Torch}.

Lemma set_x_window_same (s : estimator) : set_x_window (_x_window s) s = s.
Proof. destruct s; reflexivity. Qed.

Lemma initialized_set_x_window w (s : estimator) :
  initialized s -> initialized (set_x_window w s).
Proof. intros [Hn Ho]. split; assumption. Qed.

Lemma initialized_set_net n (s : estimator) :
  initialized s -> initialized (set_net n s).
Proof. intros [Hn Ho]. split; simpl; eauto. Qed.

Lemma run_calls_cons a c cs (s : estimator) :
  run_calls a (c :: cs) s =
    (fst (run_calls a cs (post (run_call a c s))),
     (calls (run_call a c s), outcome (run_call a c s))
       :: snd (run_calls a cs (post (run_call a c s)))).
Proof.
  simpl. destruct (run_call a c s) as [[s1 t] r].
  unfold post, calls, outcome. simpl.
  destruct (run_calls a cs s1) as [s2 rs]. reflexivity.
Qed.

Lemma run_trace_cons a c cs (s : estimator) :
  run_trace (run_calls a (c :: cs) s) =
    calls (run_call a c s) ++ run_trace (run_calls a cs (post (run_call a c s))).
Proof. rewrite run_calls_cons. reflexivity. Qed.

Lemma existsb_weaken (p q : event -> bool) (t : list event) :
  (forall e, p e = true -> q e = true) ->
  existsb q t = false -> existsb p t = false.
Proof.
  intros Hpq. induction t as [|e t IH]; simpl; [reflexivity|].
  intros Hq. apply orb_false_iff in Hq. destruct Hq as [He Ht].
  rewrite (IH Ht). destruct (p e) eqn:Ep; [|reflexivity].
  rewrite (Hpq e Ep) in He. discriminate He.
Qed.

Lemma step_is_training e : is_step e = true -> is_training e = true.
Proof. destruct e; simpl; intros E; try discriminate E; reflexivity. Qed.

Lemma forward_in_exists x (t : list event) :
  In (EvForward x) t -> existsb is_forward t = true.
Proof.
  intros Hin. apply existsb_exists. exists (EvForward x). auto.
Qed.

(** A call whose construction raises ends there, the adapter as it was. *)
Lemma run_call_construction_raises a c (s : estimator) t1 e :
  if_net_is_None (_init_net (len (features c))) s = (s, t1, inl e) ->
  post (run_call a c s) = s /\ calls (run_call a c s) = t1.
Proof.
  intros Hg. destruct a, c as [x y|x]; unfold run_call, features in *; cbv zeta;
    change (calls (?p, ?t, ?o)) with t; change (post (?p, ?t, ?o)) with p;
    [unfold Regressor.learn_one|unfold Regressor.predict_one
    |unfold RollingRegressor.learn_one|unfold RollingRegressor.predict_one];
    erewrite bind_raise by exact Hg; split; reflexivity.
Qed.

(** Any call on an adapter that has its network and optimizer keeps
    them and constructs nothing. *)
Lemma run_call_constructed a c (s s0 : estimator) t0 :
  constructed (features c) s s0 t0 ->
  initialized s0 ->
  exists t1, calls (run_call a c s) = t0 ++ t1 /\
             existsb is_construction t1 = false /\
             initialized (post (run_call a c s)).
Proof.
  intros Hc Hi.
  assert (Hnil : exists t1 : list event, t0 = t0 ++ t1 /\
            existsb is_construction t1 = false /\ initialized s0).
  { exists []. rewrite app_nil_r. auto. }
  assert (Htrain : forall tx ty s1, initialized s1 ->
            exists t1, calls (learned t0 (train_step tx ty s1)) = t0 ++ t1 /\
                       existsb is_construction t1 = false /\
                       initialized (post (learned t0 (train_step tx ty s1)))).
  { intros tx ty s1 Hi1. exists (calls (train_step tx ty s1)).
    destruct (train_step_initialized tx ty Hi1) as [Hp Hq].
    unfold learned. unfold calls at 1, post at 1. simpl. auto. }
  destruct Hi as [[n En] Ho].
  destruct a, c as [x y|x]; unfold run_call, features in *; cbv zeta;
    change (calls (?p, ?t, ?r)) with t; change (post (?p, ?t, ?r)) with p.
  - rewrite (regressor_learn_one_unfold y Hc).
    destruct (dict2tensor x) as [e|tx]; [exact Hnil|].
    destruct (scalar2tensor y) as [e|ty]; [exact Hnil|].
    apply Htrain. split; eauto.
  - rewrite (regressor_predict_one_unfold Hc En).
    destruct (dict2tensor x) as [e|tx]; [exact Hnil|].
    unfold post, calls. simpl. eexists. split; [reflexivity|]. split.
    + destruct (snd (forward (eval n) tx)); reflexivity.
    + apply initialized_set_net. split; eauto.
  - pose proof (rolling_learn_one_unfold y Hc) as Hr. cbv zeta in Hr. rewrite Hr.
    assert (Hi1 : initialized (set_x_window (bounded_append (window_size s) (_x_window s) (map snd x)) s0))
      by (apply initialized_set_x_window; split; eauto).
    assert (Hnil1 : exists t1 : list event, t0 = t0 ++ t1 /\
              existsb is_construction t1 = false /\
              initialized (set_x_window (bounded_append (window_size s) (_x_window s) (map snd x)) s0)).
    { exists []. rewrite app_nil_r. auto. }
    destruct (Z.of_nat (length (bounded_append (window_size s) (_x_window s) (map snd x))) =? window_size s)%Z;
      [|exact Hnil1].
    destruct (list2tensor (bounded_append (window_size s) (_x_window s) (map snd x))) as [e|tx]; [exact Hnil1|].
    destruct (scalar2tensor y) as [e|ty]; [exact Hnil1|].
    apply Htrain. exact Hi1.
  - destruct (Z.eq_dec (Z.of_nat (length (_x_window s))) (window_size s)) as [E|E].
    + destruct (append_predict s) eqn:Ea.
      * destruct (list2tensor (bounded_append (window_size s) (_x_window s) (map snd x))) as [e|tx] eqn:Et.
        -- rewrite (rolling_predict_one_append_ragged Hc E Ea Et).
           unfold post, calls. simpl. exists []. rewrite app_nil_r.
           repeat split; eauto.
        -- rewrite (rolling_predict_one_append_branch Hc En E Ea Et).
           unfold post, calls. simpl. eexists. split; [reflexivity|]. split.
           ++ destruct (snd (forward (eval n) tx)); reflexivity.
           ++ apply initialized_set_net, initialized_set_x_window. split; eauto.
      * rewrite (rolling_predict_one_copy_branch Hc E Ea). exact Hnil.
    + rewrite (rolling_predict_one_placeholder Hc E). exact Hnil.
Qed.

Lemma run_calls_initialized a cs (s : estimator) :
  initialized s ->
  initialized (fst (run_calls a cs s)) /\
  Forall (fun c => existsb is_construction (fst c) = false) (snd (run_calls a cs s)).
Proof.
  revert s. induction cs as [|c cs IH]; intros s Hi; simpl.
  - split; [exact Hi|constructor].
  - destruct Hi as [Hn Ho].
    destruct (run_call_constructed a c (constructed_initialized_id (features c) s Hn)
                (conj Hn Ho)) as (t1 & Ht & Hq & Hp).
    destruct (run_call a c s) as [[s1 t] r] eqn:Er.
    unfold post, calls in *. simpl in *. subst t.
    destruct (IH s1 Hp) as [Hf Hall].
    destruct (run_calls a cs s1) as [s2 rs]. simpl in *.
    split; [exact Hf|]. constructor; [exact Hq|exact Hall].
Qed.

(** The buffer of a rolling adapter holds no more than [window_size] rows
    after a call if it did before, and [window_size] rows if it did
    before. *)
Lemma rolling_call_rows c (s : estimator) :
  ((rows s <= window_size s)%Z ->
   (rows (post (run_call Rolling c s)) <= window_size s)%Z) /\
  (rows s = window_size s -> rows (post (run_call Rolling c s)) = window_size s).
Proof.
  destruct (rolling_call_summary c s) as (_ & _ & [Hw|Hw] & _);
    unfold rows in *; rewrite Hw; try rewrite bounded_append_length; split; lia.
Qed.

(** On a buffer of [window_size] rows, a [learn_one] that returns has
    applied exactly one optimizer step. *)
Lemma rolling_learn_one_full x y (s : estimator) :
  rows s = window_size s ->
  outcome (RollingRegressor.learn_one x y s) = inr Self ->
  count_events is_step (calls (RollingRegressor.learn_one x y s)) = 1.
Proof.
  intros Hfull. unfold rows in Hfull.
  assert (Hw : Z.of_nat (length (bounded_append (window_size s) (_x_window s)
                                   (map snd x))) = window_size s)
    by (rewrite bounded_append_length; lia).
  destruct (rolling_learn_one_shape x y s)
    as [(t1 & e & -> & _ & Ht1)
       |(s0 & t0 & Hc & [(Hlen & ->)|[(Hlen & e & ->)
                                     |(Hlen & tx & ty & Ex & Ey & ->)]])];
    change (calls (?p, ?t, ?o)) with t; change (outcome (?p, ?t, ?o)) with o;
    try discriminate; try contradiction.
  destruct (constructed_frame Hc) as (_ & _ & _ & _ & Ht0).
  unfold learned.
  change (calls (?p, ?t, ?o)) with t; change (outcome (?p, ?t, ?o)) with o.
  set (s1 := set_x_window _ s0).
  destruct (outcome (train_step tx ty s1)) as [e|[]] eqn:Eo; [discriminate|].
  intros _. rewrite count_events_app, (train_step_returns tx ty s1 Eo).
  rewrite (count_events_none is_step t0)
    by (apply construction_counts_none; [exact construction_not_step|exact Ht0]).
  reflexivity.
Qed.

Lemma rolling_run_rows cs (s : estimator) :
  ((rows s <= window_size s)%Z ->
   (rows (fst (run_calls Rolling cs s)) <= window_size s)%Z) /\
  (rows s = window_size s ->
   rows (fst (run_calls Rolling cs s)) = window_size s /\
   Forall (fun tr => snd tr = Learned (inr Self) ->
                     count_events is_step (fst tr) = 1)
          (snd (run_calls Rolling cs s))).
Proof.
  revert s. induction cs as [|c cs IH]; intros s.
  - simpl. split; [auto|]. intros Hfull. split; [exact Hfull|constructor].
  - rewrite run_calls_cons. cbn [fst snd].
    destruct (rolling_call_rows c s) as [Hle Heq].
    destruct (rolling_call_summary c s) as (Hs & _).
    destruct (IH (post (run_call Rolling c s))) as [IHle IHeq].
    rewrite Hs in IHle, IHeq. split.
    + intros Hb. apply IHle, Hle, Hb.
    + intros Hfull. destruct (IHeq (Heq Hfull)) as [Hr Hall].
      split; [exact Hr|]. constructor; [|exact Hall].
      cbn [fst snd]. destruct c as [x y|x]; unfold run_call; cbv zeta;
        change (calls (?p, ?t, ?o)) with t; change (outcome (?p, ?t, ?o)) with o.
      * intros Ho. apply rolling_learn_one_full; [exact Hfull|].
        inversion Ho as [Ho']. rewrite Ho'. reflexivity.
      * intros Ho. discriminate Ho.
Qed.

(** ** Network use after construction *)

Lemma used_after_built_true (t : list event) : used_after_built true true t = true.
Proof.
  induction t as [|e t IH]; [reflexivity|].
  destruct e; simpl; rewrite ?IH, ?orb_true_r; reflexivity.
Qed.

(** What holds of a trace holds of it with more builders called before. *)
Lemma used_after_built_weaken b o b' o' (t : list event) :
  (b = true -> b' = true) -> (o = true -> o' = true) ->
  used_after_built b o t = true -> used_after_built b' o' t = true.
Proof.
  revert b o b' o'.
  induction t as [|e t IH]; intros b o b' o' Hb Ho Hu; [reflexivity|].
  assert (Hflags : forall u, (negb u || b && o) = true -> (negb u || b' && o') = true).
  { intros u Hor. destruct u; simpl in *; [|reflexivity].
    apply andb_true_iff in Hor. destruct Hor as [Eb Eo].
    rewrite (Hb Eb), (Ho Eo). reflexivity. }
  destruct e; cbn [used_after_built] in *;
    try (apply andb_true_iff in Hu; destruct Hu as [Hu1 Hu2];
         apply andb_true_iff; split;
         [apply Hflags; exact Hu1|exact (IH b o b' o' Hb Ho Hu2)]).
  - apply (IH true o true o'); auto.
  - apply (IH b true b' true); auto.
Qed.

(** A construction, whether it raises or not, uses neither network nor
    optimizer. *)
Lemma used_after_built_construction b o (t1 t2 : list event) :
  forallb is_construction t1 = true ->
  used_after_built b o t2 = true ->
  used_after_built b o (t1 ++ t2) = true.
Proof.
  revert b o. induction t1 as [|e t1 IH]; intros b o Hall H2; [exact H2|].
  simpl in Hall. apply andb_true_iff in Hall. destruct Hall as [He Ht].
  destruct e; simpl in He; try discriminate He; simpl; apply IH; try exact Ht.
  - eapply used_after_built_weaken; [| |exact H2]; auto.
  - eapply used_after_built_weaken; [| |exact H2]; auto.
Qed.

(** In a run on an adapter that is without network, or whose builders
    were both called, network and optimizer are used only after calls of
    both builders. *)
Lemma run_used_after_built a cs (s : estimator) b o :
  net s = None \/ (b = true /\ o = true) ->
  used_after_built b o (run_trace (run_calls a cs s)) = true.
Proof.
  revert s b o. induction cs as [|c cs IH]; intros s b o Hinv; [reflexivity|].
  destruct Hinv as [En|[-> ->]]; [|apply used_after_built_true].
  rewrite run_trace_cons.
  destruct (construction_cases (features c) s)
    as [(s0 & t0 & Hc)|(t1 & e & Hg & _ & Ht1)].
  - destruct (constructed_cases Hc) as [(n & En' & _)|(_ & n & o' & _ & _ & Es0 & Et0)];
      [congruence|].
    assert (Hi : initialized s0) by (rewrite Es0; split; simpl; eauto).
    destruct (run_call_constructed a c Hc Hi) as (t1 & -> & _ & _).
    rewrite Et0. simpl. apply used_after_built_true.
  - destruct (run_call_construction_raises a c Hg) as [-> ->].
    apply used_after_built_construction; [exact Ht1|].
    apply IH. left. exact En.
Qed.

End Runs.

(** C9, as stated, fails: with a window of 1 and [append_predict] on,
    after [learn_one({a:1}, 10)] and [predict_one({a:2})] the buffer holds
    one row, [[2]], not more than [window_size]; the [learn_one] that
    follows appends its row, finds [window_size] rows and applies an
    optimizer step. *)
Lemma rolling_learn_one_trains_after_predict :
  let s := fst (run_calls Rolling [Linear.learn 1 10; Linear.predict 2]
                  (Linear.fresh 1 true)) in
  let run := run_calls Rolling
               [Linear.learn 1 10; Linear.predict 2; Linear.learn 3 30]
               (Linear.fresh 1 true) in
  _x_window s = [[PyFloat 2%Z]] /\
  rows s = window_size s /\
  map (fun c => existsb is_step (fst c)) (snd run) = [true; false; true] /\
  _x_window (fst run) = [[PyFloat 3%Z]].
Proof.
  cbv zeta. repeat split.
Qed.

(** C9, amended: the buffer of a [RollingRegressor] never holds more than
    [window_size] rows: if it does not before a run of [learn_one] and
    [predict_one] calls, it does not after it, a [predict_one] with
    [append_predict] on a full buffer included.  Once it holds
    [window_size] rows it holds [window_size] rows after every later call,
    and every later [learn_one] call that returns has applied exactly one
    optimizer step. *)
Theorem rolling_full_stays_full `{Torch} :
  forall cs (s : estimator),
    (rows s <= window_size s)%Z ->
    (rows (fst (run_calls Rolling cs s)) <= window_size s)%Z /\
    (rows s = window_size s ->
     rows (fst (run_calls Rolling cs s)) = window_size s /\
     Forall (fun tr => snd tr = Learned (inr Self) ->
                       count_events is_step (fst tr) = 1)
            (snd (run_calls Rolling cs s))).
Proof.
  intros cs s Hle. destruct (rolling_run_rows cs s) as [H1 H2].
  split; [apply H1; exact Hle|exact H2].
Qed.

(** C4, as stated, fails: with a builder that raises at width 1, the first
    call ([predict_one({a:1})]) calls the builder and raises, the adapter
    stays without network, and the second call
    ([predict_one({a:1, b:2})]) calls the builder again: the network is
    constructed in the second call, with the width of the second call's
    feature map. *)
Lemma network_constructed_in_second_call :
  let s := @new_estimator Wide.torch 0 false in
  let run := run_calls SingleExample [Wide.predict false; Wide.predict true] s in
  net (fst (run_calls SingleExample [Wide.predict false] s)) = None /\
  map fst (snd run) =
    [[@EvBuild Wide.torch 1];
     [@EvBuild Wide.torch 2; @EvOptimizer Wide.torch; @EvEval Wide.torch;
      @EvForward Wide.torch [[1%Z; 2%Z]]; @EvItem Wide.torch]] /\
  option_map Linear.weights (net (fst run)) = Some [0%Z; 0%Z].
Proof.
  cbv zeta. repeat split.
Qed.

(** C4, amended: in any run of [learn_one] and [predict_one] calls on a
    new adapter of either kind, a call that uses the network or the
    optimizer comes after calls of both builders.  When the builders do
    not raise at the width of the first call's feature map, the run
    constructs the network and its optimizer exactly once: at the head of
    the first call, with the number of keys of that call's feature map as
    input width; no later call constructs them again and the adapter keeps
    them.  (When a builder raises, the adapter stays without network and
    the next call tries again, at its own width.) *)
Theorem network_constructed_once `{Torch} :
  forall a window append c cs,
    let run := run_calls a (c :: cs) (new_estimator window append) in
    used_after_built false false (run_trace run) = true /\
    forall n o,
      build_fn (len (features c)) = inr n ->
      optimizer_fn n = inr o ->
      (exists t1 r1 rest,
         snd run = (EvBuild (len (features c)) :: EvOptimizer :: t1, r1) :: rest /\
         existsb is_construction t1 = false /\
         Forall (fun tr => existsb is_construction (fst tr) = false) rest) /\
      initialized (fst run) /\
      (forall before e after,
         run_trace run = before ++ e :: after ->
         uses_net e = true ->
         exists before',
           before = EvBuild (len (features c)) :: EvOptimizer :: before').
Proof.
  intros a window append c cs run.
  split; [apply run_used_after_built; left; reflexivity|].
  intros n o Eb Eo.
  set (s := new_estimator window append).
  assert (Hc : constructed (features c) s (set_optimizer o (set_net n s))
                 [EvBuild (len (features c)); EvOptimizer]).
  { unfold constructed, if_net_is_None, _init_net, bind, emit, lift, modify.
    simpl. rewrite Eb. simpl. rewrite Eo. reflexivity. }
  assert (Hi : initialized (set_optimizer o (set_net n s)))
    by (split; simpl; eauto).
  destruct (run_call_constructed a c Hc Hi) as (t1 & Ht & Hq & Hp).
  assert (Hshape : exists t1 r1 rest,
            snd run = (EvBuild (len (features c)) :: EvOptimizer :: t1, r1) :: rest /\
            existsb is_construction t1 = false /\
            Forall (fun tr => existsb is_construction (fst tr) = false) rest /\
            initialized (fst run)).
  { unfold run. cbn [run_calls]. fold s.
    destruct (run_call a c s) as [[s1 t] r] eqn:Er.
    unfold post, calls in Ht, Hp. simpl in Ht, Hp. subst t.
    destruct (run_calls_initialized a cs Hp) as [Hf Hall].
    destruct (run_calls a cs s1) as [s2 rs]. simpl in *.
    exists t1, r, rs. auto. }
  destruct Hshape as (u1 & r1 & rest & Hs & Hu & Hrest & Hfin).
  split; [exists u1, r1, rest; auto|]. split; [exact Hfin|].
  intros before e after Hcat Huse. unfold run_trace in Hcat.
  rewrite Hs in Hcat. simpl in Hcat.
  destruct before as [|b1 [|b2 before']]; simpl in Hcat.
  - inversion Hcat; subst. discriminate.
  - inversion Hcat; subst. discriminate.
  - inversion Hcat; subst. eauto.
Qed.

(** ** Regressor.predict_one *)

Section RegressorPredict.

Context `{Torch} {L : StatelessEval}.

(** After one prediction the adapter is a fixed point of [predict_one]. *)
Lemma regressor_predict_one_again (s : estimator) n x :
  net s = Some n ->
  let r := Regressor.predict_one x s in
  post (Regressor.predict_one x (post r)) = post r /\
  outcome (Regressor.predict_one x (post r)) = outcome r.
Proof.
  intros En r.
  assert (Hc : constructed x s s []) by (apply constructed_initialized_id; eauto).
  unfold r. rewrite (regressor_predict_one_unfold Hc En).
  destruct (dict2tensor x) as [e|tx] eqn:Ex.
  - unfold post at 2 3 4, outcome at 2. simpl.
    rewrite (regressor_predict_one_unfold Hc En), Ex. split; reflexivity.
  - unfold post at 2 3 4, outcome at 2. simpl. rewrite eval_forward.
    assert (Hc' : constructed x (set_net (eval n) s) (set_net (eval n) s) [])
      by (apply constructed_initialized_id; simpl; eauto).
    rewrite (regressor_predict_one_unfold (n:=eval n) Hc' eq_refl), Ex.
    unfold post, outcome. simpl.
    rewrite eval_idempotent, eval_forward. split; reflexivity.
Qed.

Lemma regressor_predict_one_keeps (s : estimator) n x :
  net s = Some n ->
  (exists n', net (post (Regressor.predict_one x s)) = Some n' /\
              parameters n' = parameters n) /\
  optimizer (post (Regressor.predict_one x s)) = optimizer s.
Proof.
  intros En.
  assert (Hc : constructed x s s []) by (apply constructed_initialized_id; eauto).
  rewrite (regressor_predict_one_unfold Hc En).
  destruct (dict2tensor x) as [e|tx]; unfold post; simpl.
  - split; [exists n; auto|reflexivity].
  - split; [|reflexivity]. eexists. split; [reflexivity|].
    rewrite eval_forward. apply eval_parameters.
Qed.

(** Repeating a prediction on a fixed point of [predict_one]. *)
Lemma regressor_predict_one_repeat (s : estimator) x N :
  post (Regressor.predict_one x s) = s ->
  fst (run_calls SingleExample (repeat (PredictOne x) N) s) = s /\
  Forall (fun c => snd c = Predicted (outcome (Regressor.predict_one x s)))
         (snd (run_calls SingleExample (repeat (PredictOne x) N) s)).
Proof.
  intros Hfix. induction N as [|N IH]; simpl.
  - split; [reflexivity|constructor].
  - rewrite Hfix.
    destruct (run_calls SingleExample (repeat (PredictOne x) N) s) as [s2 rs].
    simpl in *. destruct IH as [-> Hall]. split; [reflexivity|].
    constructor; [reflexivity|exact Hall].
Qed.

End RegressorPredict.

(** C5: on a [Regressor] that has its network, and a network whose
    evaluation is stateless, [predict_one x] leaves the trainable
    parameters and the optimizer unchanged, and [predict_one x] called [N]
    times in a row gives the same result each time, the parameters and the
    optimizer still unchanged after the [N] calls. *)
Theorem regressor_predict_one_pure `{Torch} {L : StatelessEval} :
  forall (s : estimator) n x,
    net s = Some n ->
    let r := Regressor.predict_one x s in
    (exists n', net (post r) = Some n' /\ parameters n' = parameters n) /\
    optimizer (post r) = optimizer s /\
    forall N,
      let run := run_calls SingleExample (repeat (PredictOne x) N) s in
      Forall (fun c => snd c = Predicted (outcome r)) (snd run) /\
      (exists n', net (fst run) = Some n' /\ parameters n' = parameters n) /\
      optimizer (fst run) = optimizer s.
Proof.
  intros s n x En r.
  destruct (regressor_predict_one_keeps s x En) as [Hn Ho].
  split; [exact Hn|]. split; [exact Ho|].
  intros [|N] run; unfold run.
  - simpl. split; [constructor|]. split; [exists n; auto|reflexivity].
  - cbn [repeat run_calls run_call]. fold r.
    destruct (regressor_predict_one_again s x En) as [Hfix Hout]. fold r in Hfix, Hout.
    destruct (regressor_predict_one_repeat x N Hfix) as [Hs Hall].
    rewrite Hout in Hall.
    destruct (run_calls SingleExample (repeat (PredictOne x) N) (post r)) as [s2 rs].
    simpl in *. subst s2. split; [|split; assumption].
    constructor; [reflexivity|exact Hall].
Qed.

(** ** A learn_one call that raises *)

Section FailedLearn.

Context `{Torch}.

Lemma construction_takes_no_step (t : list event) :
  forallb is_construction t = true -> existsb is_step t = false.
Proof.
  induction t as [|e t IH]; simpl; [reflexivity|].
  intros Hall. apply andb_true_iff in Hall. destruct Hall as [He Ht].
  rewrite (IH Ht). destruct e; try discriminate He; reflexivity.
Qed.

Lemma train_step_raises_keeps {L : ParametersFrame} x y (s : estimator) n e :
  net s = Some n ->
  outcome (train_step x y s) = inl e ->
  (exists n', net (post (train_step x y s)) = Some n' /\
              parameters n' = parameters n) /\
  (forall o, optimizer s = Some o -> optimizer (post (train_step x y s)) = Some o).
Proof.
  intros En. unfold train_step. unfold_calls. simpl. rewrite En. simpl.
  repeat split_next; intros E'; try discriminate E';
    (split;
     [eexists; split; [reflexivity|];
      rewrite ?backward_parameters, ?forward_parameters,
        ?zero_grad_parameters, ?train_parameters; reflexivity
     |intros o' Eo'; rewrite ?zero_grad_optimizer; congruence]).
Qed.

(** A [learn_one] result that raised, from a training step. *)
Lemma learned_raises t0 (r : estimator * list event * (exn + unit)) e :
  outcome (learned t0 r) = inl e -> outcome r = inl e.
Proof.
  unfold learned, outcome. simpl. destruct (snd r) as [e'|[]]; congruence.
Qed.

(** Either adapter's [learn_one], after a construction that did not
    raise: the call ended before the training step, on the adapter [s1]
    the step would have run on, or it is that training step. *)
Lemma learn_one_cases a x y (s s0 : estimator) t0 :
  constructed x s s0 t0 ->
  exists s1,
    net s1 = net s0 /\ optimizer s1 = optimizer s0 /\
    ((exists r, run_call a (LearnOne x y) s = (s1, t0, Learned r)) \/
     (exists tx ty,
        run_call a (LearnOne x y) s =
          (post (train_step tx ty s1), t0 ++ calls (train_step tx ty s1),
           Learned (outcome (learned t0 (train_step tx ty s1)))))).
Proof.
  intros Hc. destruct a; unfold run_call.
  - exists s0. split; [reflexivity|]. split; [reflexivity|].
    rewrite (regressor_learn_one_unfold y Hc).
    destruct (dict2tensor x) as [e|tx]; [left; eexists; reflexivity|].
    destruct (scalar2tensor y) as [e|ty]; [left; eexists; reflexivity|].
    right. exists tx, ty. reflexivity.
  - exists (set_x_window (bounded_append (window_size s) (_x_window s) (map snd x)) s0).
    split; [reflexivity|]. split; [reflexivity|].
    pose proof (rolling_learn_one_unfold y Hc) as Hr. cbv zeta in Hr. rewrite Hr.
    destruct (Z.of_nat (length (bounded_append (window_size s) (_x_window s) (map snd x))) =? window_size s)%Z;
      [|left; eexists; reflexivity].
    destruct (list2tensor (bounded_append (window_size s) (_x_window s) (map snd x))) as [e|tx];
      [left; eexists; reflexivity|].
    destruct (scalar2tensor y) as [e|ty]; [left; eexists; reflexivity|].
    right. exists tx, ty. reflexivity.
Qed.

End FailedLearn.

(** C6, as stated, fails.  A first [learn_one] call whose feature value is
    not a number raises at the conversion, after the network and the
    optimizer were constructed: they are not as before the call.  And on
    an adapter left in evaluation mode by [predict_one], a [learn_one]
    call whose forward pass raises (a feature map of another width) has
    already switched the network to training mode: the network is not as
    before the call. *)
Lemma failed_learn_one_changes_network :
  let s := Linear.fresh 0 false in
  let r := Regressor.learn_one (H:=Linear.torch)
             [("a"%string, PyStr "b")] (PyFloat 1%Z) s in
  let s' := fst (run_calls SingleExample [Linear.predict 1] s) in
  let r' := Regressor.learn_one (H:=Linear.torch)
              (Linear.a_is 1 ++ Linear.a_is 2) (PyFloat 1%Z) s' in
  (outcome r = inl TypeError /\ net s = None /\ optimizer s = None /\
   net (post r) <> None /\ optimizer (post r) <> None) /\
  (outcome r' = inl RuntimeError /\ net (post r') <> net s' /\
   option_map Linear.training (net s') = Some false /\
   option_map Linear.training (net (post r')) = Some true).
Proof.
  cbv zeta. repeat split; try discriminate.
Qed.

(** C6, amended: a [learn_one] call on either adapter that raises has
    applied no optimizer step, the optimizer step coming only after a
    backward pass that did not raise.  When the other library calls of the
    training step keep the parameter values (and the gradient reset the
    optimizer), a [learn_one] call that raises on an adapter that has its
    network leaves the trainable parameters, and the optimizer, as before
    the call. *)
Theorem failed_learn_one_applies_no_step `{Torch} :
  forall a (s : estimator) x y e,
    let r := run_call a (LearnOne x y) s in
    outcome r = Learned (inl e) ->
    existsb is_step (calls r) = false /\
    (ParametersFrame ->
     forall n, net s = Some n ->
       (exists n', net (post r) = Some n' /\ parameters n' = parameters n) /\
       (forall o, optimizer s = Some o -> optimizer (post r) = Some o)).
Proof.
  intros a s x y e r Hraise.
  destruct (construction_cases x s) as [(s0 & t0 & Hc)|(t1 & e1 & Hg & En & Ht1)].
  - assert (Ht0 : existsb is_step t0 = false).
    { apply construction_takes_no_step.
      destruct (constructed_frame Hc) as (_ & _ & _ & _ & Hall). exact Hall. }
    destruct (learn_one_cases a y Hc) as (s1 & En1 & Eo1 & [[r1 Hr]|(tx & ty & Hr)]);
      unfold r in *; rewrite Hr in *;
      change (outcome (?p, ?t, ?o)) with o in Hraise;
      change (calls (?p, ?t, ?o)) with t; change (post (?p, ?t, ?o)) with p.
    + split; [exact Ht0|]. intros L n En.
      destruct (constructed_cases Hc) as [(n0 & _ & -> & _)|(En0 & _)];
        [|congruence].
      rewrite En1, Eo1. split; [exists n; auto|auto].
    + assert (Hstep : outcome (train_step tx ty s1) = inl e).
      { apply (learned_raises t0). congruence. }
      split.
      * rewrite existsb_app, Ht0. simpl.
        apply (train_step_raises tx ty s1 Hstep).
      * intros L n En.
        destruct (constructed_cases Hc) as [(n0 & _ & -> & _)|(En0 & _)];
          [|congruence].
        rewrite <- En1 in En.
        destruct (train_step_raises_keeps tx ty s1 En Hstep) as [Hn Ho].
        split; [exact Hn|]. intros o Eo. apply Ho. rewrite Eo1. exact Eo.
  - assert (Hr : r = (s, t1, Learned (inl e1))).
    { unfold r, run_call. destruct a.
      - unfold Regressor.learn_one. erewrite bind_raise by exact Hg. reflexivity.
      - unfold RollingRegressor.learn_one. erewrite bind_raise by exact Hg.
        reflexivity. }
    rewrite Hr. unfold calls, post. simpl. split.
    + apply construction_takes_no_step. exact Ht1.
    + intros L n En'. congruence.
Qed.

(** ** The example network satisfies the library laws *)

Lemma linear_stateless_eval : @StatelessEval Linear.torch.
Proof.
  constructor; simpl.
  - intros n. reflexivity.
  - intros n. reflexivity.
  - intros n x. unfold Linear.call_unit.
    destruct (forallb _ x); reflexivity.
Qed.

Lemma linear_parameters_frame : @ParametersFrame Linear.torch.
Proof.
  constructor; simpl; try reflexivity.
  intros n x. unfold Linear.call_unit.
  destruct (forallb _ x); reflexivity.
Qed.

(** ** The theorems at work on the example network *)

Lemma regressor_learn_one_trains_once_witness :
  calls (Regressor.learn_one (H:=Linear.torch) (Linear.a_is 1) (PyFloat 10%Z)
           (Linear.fresh 0 false)) =
    [EvBuild 1; EvOptimizer; EvTrain; EvZeroGrad; EvForward [[1%Z]];
     EvLoss [[10%Z]]; EvBackward; EvStep] /\
  outcome (Regressor.learn_one (H:=Linear.torch) (Linear.a_is 1) (PyFloat 10%Z)
             (Linear.fresh 0 false)) = inr Self.
Proof.
  erewrite (@regressor_learn_one_trains_once Linear.torch (Linear.fresh 0 false));
    cycle 1; [reflexivity .. | split; reflexivity].
Defined.

Lemma regressor_predict_one_pure_witness :
  let s := fst (run_calls SingleExample [Linear.learn 1 10] (Linear.fresh 0 false)) in
  Forall (fun c => snd c = Predicted (outcome (Regressor.predict_one (Linear.a_is 1) s)))
         (snd (run_calls SingleExample (repeat (Linear.predict 1) 3) s)).
Proof.
  cbv zeta.
  set (s := fst (run_calls SingleExample [Linear.learn 1 10] (Linear.fresh 0 false))).
  destruct (@regressor_predict_one_pure Linear.torch linear_stateless_eval s
              (Linear.mkUnit [20%Z] 20 true [(-20)%Z] (-20)) (Linear.a_is 1) eq_refl)
    as (_ & _ & Hrep).
  exact (proj1 (Hrep 3)).
Defined.

Lemma failed_learn_one_applies_no_step_witness :
  let s := fst (run_calls SingleExample [Linear.predict 1] (Linear.fresh 0 false)) in
  let r := run_call SingleExample
             (LearnOne (Linear.a_is 1 ++ Linear.a_is 2) (PyFloat 1%Z)) s in
  outcome r = @Learned Linear.torch (inl RuntimeError) /\
  existsb is_step (calls r) = false /\
  exists n', net (post r) = Some n' /\ parameters n' = ([0%Z], 0%Z).
Proof.
  cbv zeta.
  set (s := fst (run_calls SingleExample [Linear.predict 1] (Linear.fresh 0 false))).
  assert (He : outcome (run_call SingleExample
                          (LearnOne (Linear.a_is 1 ++ Linear.a_is 2) (PyFloat 1%Z)) s) =
               @Learned Linear.torch (inl RuntimeError)) by reflexivity.
  split; [exact He|].
  destruct (@failed_learn_one_applies_no_step Linear.torch SingleExample s
              (Linear.a_is 1 ++ Linear.a_is 2) (PyFloat 1%Z) RuntimeError He)
    as [Hstep Hkeep].
  split; [exact Hstep|].
  exact (proj1 (Hkeep linear_parameters_frame
                  (Linear.mkUnit [0%Z] 0 false [0%Z] 0) eq_refl)).
Defined.

Lemma rolling_learn_one_trains_iff_full_witness :
  let s := fst (run_calls Rolling [Linear.learn 1 10] (Linear.fresh 2 false)) in
  let r := RollingRegressor.learn_one (H:=Linear.torch) (Linear.a_is 2)
             (PyFloat 20%Z) s in
  constructed (Linear.a_is 2) s s [] /\
  _x_window (post r) = [[PyFloat 1%Z]; [PyFloat 2%Z]] /\
  net (post r) = Some (Linear.mkUnit [120%Z] 80 true [(-120)%Z] (-80)) /\
  optimizer (post r) = Some (Linear.mkSgd 1) /\
  calls r = [EvTrain; EvZeroGrad; EvForward [[1%Z]; [2%Z]]; EvLoss [[20%Z]];
             EvBackward; EvStep] /\
  outcome r = inr Self.
Proof.
  cbv zeta.
  set (s := fst (run_calls Rolling [Linear.learn 1 10] (Linear.fresh 2 false))).
  assert (Hc : constructed (Linear.a_is 2) s s []) by reflexivity.
  split; [exact Hc|].
  destruct (@rolling_learn_one_trains_iff_full Linear.torch s s []
              (Linear.a_is 2) (PyFloat 20%Z) Hc) as (_ & _ & _ & Hfull & _).
  rewrite (Hfull eq_refl
             (Linear.mkUnit [0%Z] 0 false [0%Z] 0) (Linear.mkSgd 0)
             [[1%Z]; [2%Z]] [[20%Z]] (Linear.mkOut 0 [3%Z] 2)
             (Linear.mkLoss 400 [(-120)%Z] (-80))
             eq_refl eq_refl eq_refl eq_refl eq_refl eq_refl eq_refl).
  repeat split.
Defined.

Lemma network_constructed_once_witness :
  initialized
    (fst (run_calls Rolling [Linear.learn 1 10; Linear.learn 2 20; Linear.predict 3]
            (Linear.fresh 2 false))).
Proof.
  exact (proj1 (proj2 (proj2 (@network_constructed_once Linear.torch Rolling 2%Z false
                                (Linear.learn 1 10)
                                [Linear.learn 2 20; Linear.predict 3])
                         _ _ eq_refl eq_refl))).
Defined.

Lemma rolling_predict_one_append_slides_witness :
  let s := fst (run_calls Rolling [Linear.learn 1 10] (Linear.fresh 1 true)) in
  let r := RollingRegressor.predict_one (H:=Linear.torch) (Linear.a_is 2) s in
  constructed (Linear.a_is 2) s s [] /\
  _x_window (post r) =
    bounded_append (window_size s) (_x_window s) (map snd (Linear.a_is 2)) /\
  Z.of_nat (length (_x_window (post r))) = 1%Z /\
  calls r = [EvEval; EvForward [[2%Z]]; EvItem].
Proof.
  cbv zeta.
  set (s := fst (run_calls Rolling [Linear.learn 1 10] (Linear.fresh 1 true))).
  assert (Hc : constructed (Linear.a_is 2) s s []) by reflexivity.
  split; [exact Hc|].
  destruct (@rolling_predict_one_append_slides Linear.torch s s [] (Linear.a_is 2)
              Hc eq_refl eq_refl) as (Hw & Hlen & _ & n & En & Hrun).
  split; [exact Hw|]. split; [exact Hlen|].
  destruct (Hrun [[2%Z]] eq_refl) as (_ & Hok & _).
  inversion En; subst n.
  exact (proj1 (Hok (Linear.mkOut 60 [2%Z] 1) eq_refl)).
Defined.

Lemma rolling_full_stays_full_witness :
  let s := fst (run_calls Rolling [Linear.learn 1 10] (Linear.fresh 1 true)) in
  let run := run_calls Rolling [Linear.predict 2; Linear.learn 3 30] s in
  rows s = window_size s /\
  rows (fst run) = window_size s /\
  Forall (fun tr => snd tr = Learned (inr Self) ->
                    count_events is_step (fst tr) = 1) (snd run).
Proof.
  cbv zeta.
  set (s := fst (run_calls Rolling [Linear.learn 1 10] (Linear.fresh 1 true))).
  assert (Hfull : rows s = window_size s) by reflexivity.
  split; [exact Hfull|].
  assert (Hle : (rows s <= window_size s)%Z) by (rewrite Hfull; apply Z.le_refl).
  exact (proj2 (@rolling_full_stays_full Linear.torch
                  [Linear.predict 2; Linear.learn 3 30] s Hle) Hfull).
Defined.


(** ** Calls on an adapter that has its network *)

Section WithNetwork.

Context `{Torch}.

Lemma constructed_same x (s s0 : estimator) t0 n :
  constructed x s s0 t0 -> net s = Some n -> s0 = s /\ t0 = [].
Proof.
  intros Hc En.
  destruct (constructed_cases Hc) as [(n0 & _ & -> & ->)|(En0 & _)];
    [auto|congruence].
Qed.

Lemma train_step_keeps_net x y (s : estimator) n :
  net s = Some n -> exists n', net (post (train_step x y s)) = Some n'.
Proof.
  intros En. unfold train_step. unfold_calls. simpl. rewrite En. simpl.
  repeat split_next; eauto.
Qed.


(** [predict_one] of either adapter makes no training call and leaves the
    optimizer of an adapter that has its network alone. *)
Lemma predict_one_no_training a x (s : estimator) :
  existsb is_training (calls (run_call a (PredictOne x) s)) = false /\
  (forall n, net s = Some n ->
     optimizer (post (run_call a (PredictOne x) s)) = optimizer s).
Proof.
  destruct a.
  - unfold run_call. cbv zeta.
    change (calls (?p, ?t, ?o)) with t; change (post (?p, ?t, ?o)) with p.
    destruct (construction_cases x s) as [(s0 & t0 & Hc)|(t1 & e & Hg & _ & Ht1)].
    + destruct (constructed_frame Hc) as (_ & _ & _ & [n0 En0] & Ht0).
      assert (Hnil : existsb is_training t0 = false)
        by (apply construction_counts_none;
            [exact construction_not_training|exact Ht0]).
      rewrite (regressor_predict_one_unfold Hc En0).
      destruct (dict2tensor x) as [e|tx];
        change (calls (?p, ?t, ?o)) with t; change (post (?p, ?t, ?o)) with p.
      * split; [exact Hnil|]. intros n En.
        destruct (constructed_same Hc En) as [-> _]. reflexivity.
      * split.
        -- rewrite existsb_app, Hnil.
           destruct (snd (forward (eval n0) tx)); reflexivity.
        -- intros n En. destruct (constructed_same Hc En) as [-> _]. reflexivity.
    + unfold Regressor.predict_one. erewrite bind_raise by exact Hg.
      change (calls (?p, ?t, ?o)) with t; change (post (?p, ?t, ?o)) with p.
      split; [|reflexivity].
      apply construction_counts_none; [exact construction_not_training|exact Ht1].
  - split.
    + destruct (rolling_call_summary (PredictOne x) s)
        as (_ & _ & _ & [(Ht & _)|[(_ & (x' & y' & Hc) & _)|(_ & _ & _ & _ & Ht & _)]]);
        [exact Ht|discriminate Hc|exact Ht].
    + intros n En. unfold run_call. cbv zeta.
      change (post (?p, ?t, ?o)) with p.
      destruct (rolling_predict_one_shape x s)
        as [(t1 & e & -> & _ & Ht1)
           |(s0 & t0 & Hc &
             [(Hlen & ->)|[(Hlen & Hap & ->)|[(Hlen & Hap & e & Et & ->)
                                             |(Hlen & Hap & n0 & tx & En0 & Et & ->)]]])];
        change (post (?p, ?t, ?o)) with p;
        try (destruct (constructed_same Hc En) as [-> _]); reflexivity.
Qed.

(** With [append_predict] off, [predict_one] of the rolling adapter makes
    no call to the network and returns nothing but the placeholder. *)
Lemma rolling_predict_one_no_append x (s : estimator) :
  append_predict s = false ->
  existsb uses_net (calls (run_call Rolling (PredictOne x) s)) = false /\
  (outcome (run_call Rolling (PredictOne x) s) = Predicted (inr float0) \/
   exists e, outcome (run_call Rolling (PredictOne x) s) = Predicted (inl e)).
Proof.
  intros Hoff. unfold run_call. cbv zeta.
  change (calls (?p, ?t, ?o)) with t; change (outcome (?p, ?t, ?o)) with o.
  destruct (rolling_predict_one_shape x s)
    as [(t1 & e & -> & _ & Ht1)
       |(s0 & t0 & Hc &
         [(Hlen & ->)|[(Hlen & Hap & ->)|[(Hlen & Hap & _)|(Hlen & Hap & _)]]])];
    try congruence;
    change (calls (?p, ?t, ?o)) with t; change (outcome (?p, ?t, ?o)) with o;
    try (destruct (constructed_frame Hc) as (_ & _ & _ & _ & Ht0)).
  - split; [|right; eauto].
    apply construction_counts_none; [exact construction_not_uses_net|exact Ht1].
  - split; [|left; reflexivity].
    apply construction_counts_none; [exact construction_not_uses_net|exact Ht0].
  - split; [|right; eauto].
    apply construction_counts_none; [exact construction_not_uses_net|exact Ht0].
Qed.

(** With [append_predict] off, a call on a rolling adapter that has its
    network appends the row of a [learn_one] to the bounded buffer and
    does nothing else to the buffer. *)
Lemma rolling_call_history c (s : estimator) n :
  net s = Some n ->
  append_predict s = false ->
  (rows s <= window_size s)%Z ->
  _x_window (post (run_call Rolling c s)) =
    lastn (Z.to_nat (window_size s)) (_x_window s ++ learned_rows [c]) /\
  (exists n', net (post (run_call Rolling c s)) = Some n') /\
  append_predict (post (run_call Rolling c s)) = false.
Proof.
  intros En Hoff Hrows.
  destruct (rolling_call_summary c s) as (_ & Ha & _).
  split; [|split; [|congruence]].
  - destruct c as [x y|x]; unfold run_call; cbv zeta;
      change (post (?p, ?t, ?o)) with p; unfold learned_rows; simpl.
    + fold (bounded_append (window_size s) (_x_window s) (map snd x)).
      destruct (rolling_learn_one_shape x y s)
        as [(t1 & e & Hr & En0 & Ht1)
           |(s0 & t0 & Hc & [(Hlen & ->)|[(Hlen & e & ->)
                                         |(Hlen & tx & ty & Ex & Ey & ->)]])];
        [congruence|reflexivity|reflexivity|].
      unfold learned. change (post (?p, ?t, ?o)) with p.
      destruct (train_step_frame tx ty
                  (set_x_window (bounded_append (window_size s) (_x_window s)
                                   (map snd x)) s0)) as (Fw & _).
      rewrite Fw. reflexivity.
    + rewrite app_nil_r. rewrite lastn_all by (unfold rows in Hrows; lia).
      destruct (rolling_predict_one_shape x s)
        as [(t1 & e & -> & _ & Ht1)
           |(s0 & t0 & Hc &
             [(Hlen & ->)|[(Hlen & Hap & ->)|[(Hlen & Hap & _)|(Hlen & Hap & _)]]])];
        try congruence; change (post (?p, ?t, ?o)) with p;
        try (destruct (constructed_same Hc En) as [-> _]); reflexivity.
  - assert (Hc : constructed (features c) s s [])
      by (apply constructed_initialized_id; eauto).
    assert (Hi : forall s1 : estimator, net s1 = net s -> exists n', net s1 = Some n')
      by (intros s1 E; rewrite E; eauto).
    destruct c as [x y|x]; unfold run_call, features in *; cbv zeta;
      change (post (?p, ?t, ?o)) with p.
    + pose proof (rolling_learn_one_unfold y Hc) as Hu. cbv zeta in Hu. rewrite Hu.
      destruct (Z.of_nat (length (bounded_append (window_size s) (_x_window s)
                                    (map snd x))) =? window_size s)%Z;
        [|apply Hi; reflexivity].
      destruct (list2tensor (bounded_append (window_size s) (_x_window s)
                               (map snd x))) as [e'|tx];
        [apply Hi; reflexivity|].
      destruct (scalar2tensor y) as [e'|ty]; [apply Hi; reflexivity|].
      unfold learned. change (post (?p, ?t, ?o)) with p.
      apply (train_step_keeps_net tx ty
               (set_x_window (bounded_append (window_size s) (_x_window s)
                                (map snd x)) s) (n:=n)). exact En.
    + destruct (rolling_predict_one_shape x s)
        as [(t1 & e & -> & _ & Ht1)
           |(s0 & t0 & Hc' &
             [(Hlen & ->)|[(Hlen & Hap & ->)|[(Hlen & Hap & _)|(Hlen & Hap & _)]]])];
        try congruence; change (post (?p, ?t, ?o)) with p;
        try (destruct (constructed_same Hc' En) as [-> _]); eauto.
Qed.

(** A rolling call keeps the rows of the buffer in number or adds one, up
    to [window_size], and every row it leaves was there or is the row of
    the call. *)
Lemma rolling_call_buffer c (s : estimator) :
  (rows s <= window_size s)%Z ->
  (rows s <= rows (post (run_call Rolling c s)) <= window_size s)%Z /\
  Forall (fun row => In row (_x_window s) \/ row = map snd (features c))
         (_x_window (post (run_call Rolling c s))).
Proof.
  intros Hrows.
  destruct (rolling_call_summary c s) as (_ & _ & [Hw|Hw] & _);
    unfold rows in *; rewrite Hw.
  - split; [lia|]. apply Forall_forall. intros row Hin. left. exact Hin.
  - rewrite bounded_append_length. split; [lia|].
    apply Forall_forall. intros row Hin.
    unfold bounded_append, lastn in Hin.
    assert (Hin' : In row (_x_window s ++ [map snd (features c)])).
    { rewrite <- (firstn_skipn
                    (length (_x_window s ++ [map snd (features c)]) -
                     Z.to_nat (window_size s))
                    (_x_window s ++ [map snd (features c)])).
      apply in_or_app. right. exact Hin. }
    apply in_app_or in Hin'. destruct Hin' as [Hin'|[Hin'|[]]]; auto.
Qed.

Lemma rolling_run_buffer cs (s : estimator) :
  (rows s <= window_size s)%Z ->
  window_size (fst (run_calls Rolling cs s)) = window_size s /\
  append_predict (fst (run_calls Rolling cs s)) = append_predict s /\
  (rows s <= rows (fst (run_calls Rolling cs s)) <= window_size s)%Z /\
  Forall (fun row => In row (_x_window s) \/
                     exists c, In c cs /\ row = map snd (features c))
         (_x_window (fst (run_calls Rolling cs s))).
Proof.
  revert s. induction cs as [|c cs IH]; intros s Hrows.
  - simpl. repeat split; try lia.
    apply Forall_forall. intros row Hin. left. exact Hin.
  - rewrite run_calls_cons. cbn [fst].
    destruct (rolling_call_summary c s) as (Hs & Ha & _).
    destruct (rolling_call_buffer c s Hrows) as [Hb Hfrom].
    assert (Hrows1 : (rows (post (run_call Rolling c s)) <=
                      window_size (post (run_call Rolling c s)))%Z)
      by (rewrite Hs; lia).
    destruct (IH _ Hrows1) as (Is & Ia & Ib & Ifrom).
    split; [congruence|]. split; [congruence|]. split; [rewrite Hs in Ib; lia|].
    apply Forall_forall. intros row Hin.
    rewrite Forall_forall in Ifrom, Hfrom.
    destruct (Ifrom row Hin) as [Hold|(c0 & Hc0 & Hrow)].
    + destruct (Hfrom row Hold) as [Hs0|Hrow]; [left; exact Hs0|].
      right. exists c. split; [left; reflexivity|exact Hrow].
    + right. exists c0. split; [right; exact Hc0|exact Hrow].
Qed.

Lemma rolling_run_history cs (s : estimator) n :
  net s = Some n ->
  append_predict s = false ->
  (rows s <= window_size s)%Z ->
  _x_window (fst (run_calls Rolling cs s)) =
    lastn (Z.to_nat (window_size s)) (_x_window s ++ learned_rows cs).
Proof.
  revert s n. induction cs as [|c cs IH]; intros s n En Hoff Hrows.
  - simpl. rewrite app_nil_r. symmetry. apply lastn_all.
    unfold rows in Hrows. lia.
  - rewrite run_calls_cons. cbn [fst].
    destruct (rolling_call_history c s En Hoff Hrows) as (Hw & [n' En'] & Hoff').
    destruct (rolling_call_summary c s) as (Hs & _).
    destruct (rolling_call_buffer c s Hrows) as [Hb _].
    rewrite (IH _ n' En' Hoff') by (rewrite Hs; lia).
    rewrite Hs, Hw, lastn_lastn_app, <- app_assoc.
    unfold learned_rows. simpl. rewrite app_nil_r. reflexivity.
Qed.

End WithNetwork.

(** ** Optimizer steps and parameters over a run *)

Section StepsAndParameters.

Context `{Torch}.

(** A call on the single-example adapter takes one optimizer step when it
    is a [learn_one] that returns, and none otherwise. *)
Lemma regressor_call_steps c (s : estimator) :
  count_events is_step (calls (run_call SingleExample c s)) =
  if learned_self (outcome (run_call SingleExample c s)) then 1 else 0.
Proof.
  destruct c as [x y|x].
  - unfold run_call. cbv zeta.
    change (calls (?p, ?t, ?o)) with t; change (outcome (?p, ?t, ?o)) with o.
    destruct (construction_cases x s) as [(s0 & t0 & Hc)|(t1 & e & Hg & _ & Ht1)].
    + destruct (constructed_frame Hc) as (_ & _ & _ & _ & Ht0).
      assert (Hnil : count_events is_step t0 = 0).
      { apply count_events_none, construction_counts_none;
          [exact construction_not_step|exact Ht0]. }
      rewrite (regressor_learn_one_unfold y Hc).
      destruct (dict2tensor x) as [e|tx]; [exact Hnil|].
      destruct (scalar2tensor y) as [e|ty]; [exact Hnil|].
      unfold learned.
      change (calls (?p, ?t, ?o)) with t; change (outcome (?p, ?t, ?o)) with o.
      rewrite count_events_app, Hnil.
      destruct (outcome (train_step tx ty s0)) as [e|[]] eqn:Eo; simpl.
      * apply count_events_none. apply (train_step_raises tx ty s0 Eo).
      * rewrite (train_step_returns tx ty s0 Eo). reflexivity.
    + unfold Regressor.learn_one. erewrite bind_raise by exact Hg.
      change (calls (?p, ?t, ?o)) with t; change (outcome (?p, ?t, ?o)) with o.
      simpl. apply count_events_none, construction_counts_none;
        [exact construction_not_step|exact Ht1].
  - destruct (predict_one_no_training SingleExample x s) as [Ht _].
    replace (learned_self (outcome (run_call SingleExample (PredictOne x) s)))
      with false by reflexivity.
    apply count_events_none.
    apply (existsb_weaken is_step is_training); [exact step_is_training|exact Ht].
Qed.

Lemma regressor_run_steps cs (s : estimator) :
  count_events is_step (run_trace (run_calls SingleExample cs s)) =
  length (filter learned_self (map snd (snd (run_calls SingleExample cs s)))).
Proof.
  revert s. induction cs as [|c cs IH]; intros s; [reflexivity|].
  rewrite run_trace_cons, count_events_app, regressor_call_steps, IH.
  rewrite run_calls_cons. cbn [snd map filter].
  destruct (learned_self (outcome (run_call SingleExample c s))); reflexivity.
Qed.

(** A call that takes no optimizer step keeps the parameter values, when
    the other library calls do. *)
Lemma call_keeps_parameters {L : ParametersFrame} a c (s : estimator) n :
  (forall m, parameters (eval m) = parameters m) ->
  net s = Some n ->
  existsb is_step (calls (run_call a c s)) = false ->
  exists n', net (post (run_call a c s)) = Some n' /\ parameters n' = parameters n.
Proof.
  intros Heval En.
  assert (Hc : constructed (features c) s s [])
    by (apply constructed_initialized_id; eauto).
  destruct c as [x y|x]; unfold features in Hc.
  - destruct (learn_one_cases a y Hc) as (s1 & En1 & _ & [[r1 Hr]|(tx & ty & Hr)]);
      rewrite Hr;
      change (calls (?p, ?t, ?o)) with t; change (post (?p, ?t, ?o)) with p.
    + intros _. exists n. split; [congruence|reflexivity].
    + intros Hstep. simpl in Hstep.
      rewrite <- En1 in En.
      destruct (outcome (train_step tx ty s1)) as [e|[]] eqn:Eo.
      * destruct (train_step_raises_keeps tx ty s1 En Eo) as [Hn _]. exact Hn.
      * rewrite (train_step_returns tx ty s1 Eo) in Hstep. discriminate Hstep.
  - intros _. destruct a; unfold run_call; cbv zeta;
      change (post (?p, ?t, ?o)) with p.
    + rewrite (regressor_predict_one_unfold Hc En).
      destruct (dict2tensor x) as [e|tx]; change (post (?p, ?t, ?o)) with p.
      * exists n. auto.
      * eexists. split; [reflexivity|].
        rewrite forward_parameters. apply Heval.
    + destruct (rolling_predict_one_shape x s)
        as [(t1 & e & -> & _ & Ht1)
           |(s0 & t0 & Hc' &
             [(Hlen & ->)|[(Hlen & Hap & ->)|[(Hlen & Hap & e & Et & ->)
                                             |(Hlen & Hap & n0 & tx & En0 & Et & ->)]]])];
        change (post (?p, ?t, ?o)) with p;
        try (destruct (constructed_same Hc' En) as [-> _]);
        try (exists n; split; [assumption|reflexivity]).
      eexists. split; [reflexivity|].
      rewrite forward_parameters, Heval. congruence.
Qed.

Lemma run_keeps_parameters {L : ParametersFrame} a cs (s : estimator) n :
  (forall m, parameters (eval m) = parameters m) ->
  net s = Some n ->
  existsb is_step (run_trace (run_calls a cs s)) = false ->
  exists n', net (fst (run_calls a cs s)) = Some n' /\ parameters n' = parameters n.
Proof.
  intros Heval. revert s n. induction cs as [|c cs IH]; intros s n En Hstep.
  - exists n. auto.
  - rewrite run_trace_cons, existsb_app in Hstep.
    apply orb_false_iff in Hstep. destruct Hstep as [Hc Hrest].
    destruct (call_keeps_parameters a c s Heval En Hc) as (n1 & En1 & Hp1).
    destruct (IH _ n1 En1 Hrest) as (n' & En' & Hp').
    rewrite run_calls_cons. cbn [fst]. exists n'. split; [exact En'|congruence].
Qed.

End StepsAndParameters.

(** ** Further properties of the adapters *)

Section NoAppend.

Context `{Torch}.

Lemma rolling_run_no_append cs (s : estimator) :
  append_predict s = false ->
  Forall placeholder_or_raise (snd (run_calls Rolling cs s)).
Proof.
  revert s. induction cs as [|c cs IH]; intros s Hoff.
  - constructor.
  - rewrite run_calls_cons. cbn [snd].
    destruct (rolling_call_summary c s) as (_ & Ha & _).
    constructor; [|apply IH; congruence].
    destruct c as [x y|x]; unfold placeholder_or_raise; cbn [fst snd].
    + exact I.
    + destruct (rolling_predict_one_no_append x s Hoff) as [Hq Hr].
      unfold run_call in *. cbv zeta in *.
      change (outcome (?p, ?t, ?o)) with o in *.
      change (calls (?p, ?t, ?o)) with t in *.
      split; [exact Hq|].
      destruct Hr as [Hr|[e Hr]]; inversion Hr; eauto.
Qed.

End NoAppend.

(** X3: a run of calls on a [RollingRegressor] whose buffer holds at most
    [window_size] rows keeps [window_size] and [append_predict]; the
    buffer never holds fewer rows than before the run and never more than
    [window_size]; and every row it holds after the run was in the buffer
    before the run or is the value list of the feature map of a call of
    the run. *)
Theorem rolling_buffer_stays_bounded `{Torch} :
  forall cs (s : estimator),
    (rows s <= window_size s)%Z ->
    window_size (fst (run_calls Rolling cs s)) = window_size s /\
    append_predict (fst (run_calls Rolling cs s)) = append_predict s /\
    (rows s <= rows (fst (run_calls Rolling cs s)) <= window_size s)%Z /\
    Forall (fun row => In row (_x_window s) \/
                       exists c, In c cs /\ row = map snd (features c))
           (_x_window (fst (run_calls Rolling cs s))).
Proof. intros cs s Hrows. apply rolling_run_buffer. exact Hrows. Qed.

(** X4: with [append_predict] off, no [predict_one] call of a run on a
    [RollingRegressor] makes a call to the network: each returns the
    placeholder 0.0 or raises. *)
Theorem rolling_predict_without_append `{Torch} :
  forall cs (s : estimator),
    append_predict s = false ->
    Forall placeholder_or_raise (snd (run_calls Rolling cs s)).
Proof. intros cs s Hoff. apply rolling_run_no_append. exact Hoff. Qed.

(** X5: [predict_one] of either adapter never sets training mode, resets
    gradients, computes a loss, backpropagates or steps, and on an adapter
    that has its network it leaves the optimizer as it is. *)
Theorem predict_one_never_trains `{Torch} :
  forall a x (s : estimator),
    existsb is_training (calls (run_call a (PredictOne x) s)) = false /\
    (forall n, net s = Some n ->
       optimizer (post (run_call a (PredictOne x) s)) = optimizer s).
Proof. intros a x s. apply predict_one_no_training. Qed.

(** X6: over any run of calls on a [Regressor], the optimizer steps taken
    are as many as the [learn_one] calls that returned: one step for each
    [learn_one] that returns, none for one that raises or for
    [predict_one]. *)
Theorem regressor_steps_are_returned_learns `{Torch} :
  forall cs (s : estimator),
    count_events is_step (run_trace (run_calls SingleExample cs s)) =
    length (filter learned_self (map snd (snd (run_calls SingleExample cs s)))).
Proof. intros cs s. apply regressor_run_steps. Qed.

(** X7: every forward pass a [RollingRegressor] call runs, in [learn_one]
    and in [predict_one] alike, is on the tensor of the whole buffer as
    the call leaves it, and that buffer holds exactly [window_size]
    rows. *)
Theorem rolling_forward_sees_whole_buffer `{Torch} :
  forall c (s : estimator) t,
    let r := run_call Rolling c s in
    In (EvForward t) (calls r) ->
    list2tensor (_x_window (post r)) = inr t /\
    rows (post r) = window_size s.
Proof.
  intros c s t r Hin.
  destruct (rolling_call_summary c s)
    as (_ & _ & _ & [(_ & Hf)|[(Hl & _ & _ & _ & tx & Ex & Hall)
                              |(_ & Hl & _ & _ & _ & _ & tx & Ex & Hall)]]).
  - apply forward_in_exists in Hin. unfold r in Hin. congruence.
  - rewrite (Hall t Hin). auto.
  - rewrite (Hall t Hin). auto.
Qed.

(** X9: when the library calls other than the optimizer step keep the
    parameter values, a run of calls on either adapter in which no
    optimizer step is taken leaves the trainable parameters of an adapter
    that has its network as they were. *)
Theorem parameters_move_only_by_steps `{Torch} {L : ParametersFrame} :
  forall a cs (s : estimator) n,
    (forall m, parameters (eval m) = parameters m) ->
    net s = Some n ->
    existsb is_step (run_trace (run_calls a cs s)) = false ->
    exists n', net (fst (run_calls a cs s)) = Some n' /\
               parameters n' = parameters n.
Proof. intros a cs s n Heval En Hstep. apply run_keeps_parameters; assumption. Qed.

(** X12: on a [Regressor], [predict_one x] right after a [learn_one x y]
    that went through is computed by the network the optimizer step left,
    switched to evaluation mode, on the same tensor of [x]. *)
Theorem regressor_predict_after_learn `{Torch} :
  forall (s s0 : estimator) t0 x y n o tx ty p l,
    constructed x s s0 t0 ->
    net s0 = Some n ->
    optimizer s0 = Some o ->
    dict2tensor x = inr tx ->
    scalar2tensor y = inr ty ->
    let o1 := fst (zero_grad o (train n)) in
    let n1 := snd (zero_grad o (train n)) in
    let n2 := fst (forward n1 tx) in
    let n3 := fst (backward l n2) in
    let n4 := snd (step o1 n3) in
    snd (forward n1 tx) = inr p ->
    loss_fn p ty = inr l ->
    snd (backward l n2) = inr tt ->
    let s' := post (Regressor.learn_one x y s) in
    net s' = Some n4 /\
    Regressor.predict_one x s' =
      (set_net (fst (forward (eval n4) tx)) s',
       EvEval :: EvForward tx ::
         match snd (forward (eval n4) tx) with inl _ => [] | inr _ => [EvItem] end,
       match snd (forward (eval n4) tx) with inl e => inl e | inr q => item q end).
Proof.
  intros s s0 t0 x y n o tx ty p l Hc En Eo Ex Ey o1 n1 n2 n3 n4 Ef El Eb s'.
  assert (Hs' : s' = set_net n4 (set_optimizer (fst (step o1 n3)) s0)).
  { unfold s'. rewrite (regressor_learn_one_unfold y Hc), Ex, Ey.
    rewrite (train_step_result tx ty s0 En Eo Ef El Eb). reflexivity. }
  assert (En' : net s' = Some n4) by (rewrite Hs'; reflexivity).
  split; [exact En'|].
  assert (Hc' : constructed x s' s' [])
    by (apply constructed_initialized_id; eauto).
  rewrite (regressor_predict_one_unfold Hc' En'), Ex. reflexivity.
Qed.

(** X13: with [append_predict] off, on a [RollingRegressor] that has its
    network and whose buffer holds at most [window_size] rows, the buffer
    after any run of calls is the last [window_size] rows of the buffer
    before the run followed by the rows of the [learn_one] calls, in call
    order: every [learn_one] appends its row, whether it returns or
    raises, and no [predict_one] touches the buffer. *)
Theorem rolling_buffer_is_history `{Torch} :
  forall cs (s : estimator) n,
    net s = Some n ->
    append_predict s = false ->
    (rows s <= window_size s)%Z ->
    _x_window (fst (run_calls Rolling cs s)) =
      lastn (Z.to_nat (window_size s)) (_x_window s ++ learned_rows cs).
Proof.
  intros cs s n En Hoff Hrows. eapply rolling_run_history; eassumption.
Qed.

(** ** The further properties at work on the example network *)

Lemma rolling_predict_without_append_witness :
  let s := fst (run_calls Rolling [Linear.learn 1 10; Linear.learn 2 20]
                  (Linear.fresh 2 false)) in
  append_predict s = false /\
  Forall placeholder_or_raise
    (snd (run_calls Rolling [Linear.predict 3; Linear.learn 3 30; Linear.predict 4] s)).
Proof.
  cbv zeta.
  set (s := fst (run_calls Rolling [Linear.learn 1 10; Linear.learn 2 20]
                   (Linear.fresh 2 false))).
  assert (Hoff : append_predict s = false) by reflexivity.
  split; [exact Hoff|].
  exact (@rolling_predict_without_append Linear.torch
           [Linear.predict 3; Linear.learn 3 30; Linear.predict 4] s Hoff).
Defined.

Lemma predict_one_never_trains_witness :
  let s := fst (run_calls Rolling [Linear.learn 1 10] (Linear.fresh 1 true)) in
  let r := run_call Rolling (Linear.predict 2) s in
  existsb is_forward (calls r) = true /\
  existsb is_training (calls r) = false /\
  optimizer (post r) = optimizer s.
Proof.
  cbv zeta.
  set (s := fst (run_calls Rolling [Linear.learn 1 10] (Linear.fresh 1 true))).
  destruct (@predict_one_never_trains Linear.torch Rolling (Linear.a_is 2) s)
    as [Ht Ho].
  split; [reflexivity|]. split; [exact Ht|].
  exact (Ho (Linear.mkUnit [20%Z] 20 true [(-20)%Z] (-20)) eq_refl).
Defined.

Lemma parameters_move_only_by_steps_witness :
  let s := fst (run_calls SingleExample [Linear.predict 1] (Linear.fresh 0 false)) in
  let cs := [Linear.predict 1;
             @LearnOne Linear.torch (Linear.a_is 1 ++ Linear.a_is 2) (PyFloat 1%Z);
             Linear.predict 2] in
  existsb is_step (run_trace (run_calls SingleExample cs s)) = false /\
  exists n', net (fst (run_calls SingleExample cs s)) = Some n' /\
             parameters n' = ([0%Z], 0%Z).
Proof.
  cbv zeta.
  set (s := fst (run_calls SingleExample [Linear.predict 1] (Linear.fresh 0 false))).
  set (cs := [Linear.predict 1;
              @LearnOne Linear.torch (Linear.a_is 1 ++ Linear.a_is 2) (PyFloat 1%Z);
              Linear.predict 2]).
  assert (Hstep : existsb is_step (run_trace (run_calls SingleExample cs s)) = false)
    by reflexivity.
  split; [exact Hstep|].
  exact (@parameters_move_only_by_steps Linear.torch linear_parameters_frame
           SingleExample cs s (Linear.mkUnit [0%Z] 0 false [0%Z] 0)
           (fun m => eq_refl) eq_refl Hstep).
Defined.

Lemma regressor_predict_after_learn_witness :
  outcome (Regressor.predict_one (H:=Linear.torch) (Linear.a_is 1)
             (post (Regressor.learn_one (Linear.a_is 1) (PyFloat 10%Z)
                      (Linear.fresh 0 false)))) = inr 40%Z.
Proof.
  destruct (@regressor_predict_after_learn Linear.torch (Linear.fresh 0 false)
              (@set_optimizer Linear.torch (Linear.mkSgd 0)
                 (@set_net Linear.torch (Linear.mkUnit [0%Z] 0 false [0%Z] 0)
                    (Linear.fresh 0 false)))
              [EvBuild 1; EvOptimizer] (Linear.a_is 1) (PyFloat 10%Z)
              (Linear.mkUnit [0%Z] 0 false [0%Z] 0) (Linear.mkSgd 0)
              [[1%Z]] [[10%Z]] (Linear.mkOut 0 [1%Z] 1)
              (Linear.mkLoss 100 [(-20)%Z] (-20))
              eq_refl eq_refl eq_refl eq_refl eq_refl eq_refl eq_refl eq_refl)
    as [_ Hp].
  rewrite Hp. reflexivity.
Defined.

Lemma rolling_buffer_stays_bounded_witness :
  let s := fst (run_calls Rolling [Linear.learn 1 10] (Linear.fresh 2 true)) in
  let cs := [Linear.learn 2 20; Linear.predict 3; Linear.learn 4 40] in
  (rows s <= window_size s)%Z /\
  window_size (fst (run_calls Rolling cs s)) = 2%Z /\
  (rows s <= rows (fst (run_calls Rolling cs s)) <= 2)%Z /\
  _x_window (fst (run_calls Rolling cs s)) = [[PyFloat 3%Z]; [PyFloat 4%Z]].
Proof.
  cbv zeta.
  set (s := fst (run_calls Rolling [Linear.learn 1 10] (Linear.fresh 2 true))).
  set (cs := [Linear.learn 2 20; Linear.predict 3; Linear.learn 4 40]).
  assert (Hrows : (rows s <= window_size s)%Z) by (vm_compute; discriminate).
  split; [exact Hrows|].
  destruct (@rolling_buffer_stays_bounded Linear.torch cs s Hrows)
    as (Hs & _ & Hb & _).
  split; [exact Hs|]. split; [exact Hb|reflexivity].
Defined.

Lemma rolling_forward_sees_whole_buffer_witness :
  let s := fst (run_calls Rolling [Linear.learn 1 10] (Linear.fresh 1 true)) in
  let r := run_call Rolling (Linear.predict 2) s in
  In (EvForward [[2%Z]]) (calls r) /\
  list2tensor (_x_window (post r)) = inr [[2%Z]] /\
  rows (post r) = 1%Z.
Proof.
  cbv zeta.
  set (s := fst (run_calls Rolling [Linear.learn 1 10] (Linear.fresh 1 true))).
  assert (Hin : In (EvForward [[2%Z]])
                   (calls (run_call Rolling (Linear.predict 2) s)))
    by (right; left; reflexivity).
  split; [exact Hin|].
  exact (@rolling_forward_sees_whole_buffer Linear.torch (Linear.predict 2) s
           [[2%Z]] Hin).
Defined.

Lemma rolling_buffer_is_history_witness :
  let s := fst (run_calls Rolling [Linear.learn 1 10] (Linear.fresh 2 false)) in
  _x_window (fst (run_calls Rolling
                    [Linear.learn 2 20; Linear.predict 5; Linear.learn 3 30] s)) =
  [[PyFloat 2%Z]; [PyFloat 3%Z]].
Proof.
  cbv zeta.
  set (s := fst (run_calls Rolling [Linear.learn 1 10] (Linear.fresh 2 false))).
  assert (Hrows : (rows s <= window_size s)%Z) by (vm_compute; discriminate).
  rewrite (@rolling_buffer_is_history Linear.torch
             [Linear.learn 2 20; Linear.predict 5; Linear.learn 3 30] s
             (Linear.mkUnit [0%Z] 0 false [0%Z] 0) eq_refl eq_refl Hrows).
  reflexivity.
Defined.
